(** * Prescription app front end: typeahead controller, form aggregate and
      session gate

    A shallow embedding of the React components under [frontend/src]:
    [App.js] (the routing gate), [pages/CreatePrescription.js] (both page
    variants kept in the repository), [pages/Dashboard.js] and
    [pages/ViewPrescription.js].

    React state is a record with one field per [useState] variable and one
    setter per field; an event handler is a function from the state of the
    render it closes over to the next state and the list of actions it
    emitted (requests, timers, toasts, console output, navigation).  The
    browser around the component (requests in flight, pending timers, the
    clock, [localStorage]) is a second record, stepped by events. *)

From Stdlib Require Import ZArith String Ascii List Bool Lia.
From stdpp Require Import base option list strings gmap pretty.

Local Open Scope string_scope.
Local Open Scope list_scope.
Local Open Scope nat_scope.

(** ** JavaScript values used by the pages *)

Module Js.

(** Numbers as far as [parseInt] produces them: [NaN] or a mathematical
    integer (rounding to a double above 2^53 and the sign of zero are not
    represented). *)
Inductive number := NaN | Int (z : Z).

Inductive value :=
| Undefined
| Null
| Str (s : string)
| Num (n : number).

#[global] Instance number_eq_dec : EqDecision number.
Proof. solve_decision. Defined.

#[global] Instance value_eq_dec : EqDecision value.
Proof. solve_decision. Defined.

(** [!!s] for a string. *)
Definition truthy_string (s : string) : bool := negb (String.eqb s "").

(** [!!v]. *)
Definition truthy (v : value) : bool :=
  match v with
  | Undefined | Null => false
  | Str s => truthy_string s
  | Num NaN => false
  | Num (Int z) => negb (z =? 0)%Z
  end.

(** [v || d]. *)
Definition or_else (v d : value) : value := if truthy v then v else d.

(** String conversion as done by a template literal and by [toString].
    An integer is printed with all its digits, as JavaScript does below
    10^21; the exponent notation above that is not represented. *)
Definition toString (v : value) : string :=
  match v with
  | Undefined => "undefined"
  | Null => "null"
  | Str s => s
  | Num NaN => "NaN"
  | Num (Int z) => pretty z
  end.

(** White space of [String.prototype.trim] among the code units below 256:
    TAB, LF, VT, FF, CR, SP and NBSP. *)
Definition isWhiteSpace (c : ascii) : bool :=
  let n := nat_of_ascii c in
  ((9 <=? n)%nat && (n <=? 13)%nat) || (n =? 32)%nat || (n =? 160)%nat.

Fixpoint trimStart (s : string) : string :=
  match s with
  | String c r => if isWhiteSpace c then trimStart r else s
  | EmptyString => EmptyString
  end.

Fixpoint trimEnd (s : string) : string :=
  match s with
  | String c r =>
      let r' := trimEnd r in
      if isWhiteSpace c && String.eqb r' "" then "" else String c r'
  | EmptyString => EmptyString
  end.

Definition trim (s : string) : string := trimEnd (trimStart s).

(** Value of a digit in the given radix, if it is one. *)
Definition digitValue (radix : Z) (c : ascii) : option Z :=
  let n := Z.of_nat (nat_of_ascii c) in
  let d :=
    if (48 <=? n)%Z && (n <=? 57)%Z then Some (n - 48)%Z
    else if (97 <=? n)%Z && (n <=? 122)%Z then Some (n - 87)%Z
    else if (65 <=? n)%Z && (n <=? 90)%Z then Some (n - 55)%Z
    else None in
  match d with
  | Some v => if (v <? radix)%Z then Some v else None
  | None => None
  end.

(** Longest prefix of digits, read in the radix; [acc] is [None] until a
    digit was seen. *)
Fixpoint parseDigits (radix : Z) (s : string) (acc : option Z) : option Z :=
  match s with
  | String c r =>
      match digitValue radix c with
      | Some d => parseDigits radix r (Some (radix * default 0%Z acc + d)%Z)
      | None => acc
      end
  | EmptyString => acc
  end.

(** [parseInt(s)] with no radix argument. *)
Definition parseInt (s : string) : number :=
  let s1 := trimStart s in
  let '(sign, s2) :=
    match s1 with
    | String "-" r => ((-1)%Z, r)
    | String "+" r => (1%Z, r)
    | _ => (1%Z, s1)
    end in
  let '(radix, s3) :=
    match s2 with
    | String "0" (String "x" r) => (16%Z, r)
    | String "0" (String "X" r) => (16%Z, r)
    | _ => (10%Z, s2)
    end in
  match parseDigits radix s3 None with
  | Some z => Int (sign * z)
  | None => NaN
  end.

End Js.

(** ** What the browser offers to every page *)

(** [localStorage]: string keys to string values. *)
Abbreviation Storage := (gmap string string).

Definition getItem (key : string) (ls : Storage) : option string := ls !! key.
Definition removeItem (key : string) (ls : Storage) : Storage := delete key ls.

(** The error an [axios] call rejects with.  The pages never look at its
    kind; [detail] is [error.response?.data?.detail]. *)
Inductive ErrorKind := NetworkError | AuthError | NotFoundError | ServerError.

Record HttpError := { kind : ErrorKind; detail : Js.value }.

(** ** [pages/CreatePrescription.js], the variant with patient and
       investigation autocomplete and the combined medicine search *)

Module CreatePrescription.

(** *** Data *)

(** One row of the medicine list.  [name] only ever holds a string;
    [dosage] and [frequency] can receive whatever the selected catalog
    entry carries. *)
Record MedicineLine := {
  name : string;
  dosage : Js.value;
  frequency : Js.value
}.

Inductive Field := name_field | dosage_field | frequency_field.

(** Entries returned by the three search endpoints. *)
Record Medicine := {
  med_id : Z;
  med_name : string;
  med_dosage : Js.value;
  med_frequency : Js.value
}.

Record Patient := { pat_id : Z; pat_name : string; pat_age : Js.value }.

Record Investigation := { inv_id : Z; inv_name : string }.

#[global] Instance Medicine_eq_dec : EqDecision Medicine.
Proof. solve_decision. Defined.

#[global] Instance Patient_eq_dec : EqDecision Patient.
Proof. solve_decision. Defined.

#[global] Instance Investigation_eq_dec : EqDecision Investigation.
Proof. solve_decision. Defined.

Record FormData := {
  patient_name : string;
  patient_age : string;
  date : string;
  diagnosis : string;
  investigations : string;
  doctor_notes : string
}.

(** The object handed to [axios.post]: [{...formData, patient_age, medicines}]. *)
Record PrescriptionData := {
  body_patient_name : string;
  body_patient_age : Js.value;
  body_date : string;
  body_diagnosis : string;
  body_investigations : string;
  body_doctor_notes : string;
  body_medicines : list MedicineLine
}.

(** The [useState] variables of the component ([selectedInvestigations]
    is declared by the source and never read or written). *)
Record State := {
  formData : FormData;
  medicines : list MedicineLine;
  medicineSearch : string;
  medicineSuggestions : list Medicine;
  activeSearchIndex : option nat;
  loading : bool;
  patientSuggestions : list Patient;
  showPatientSuggestions : bool;
  investigationSuggestions : list Investigation;
  showInvestigationSuggestions : bool
}.

Inductive Request :=
| GetPatientsSearch (q : string) (token : option string)
| GetInvestigationsSearch (q : string) (token : option string)
| GetMedicinesSearch (q : string) (token : option string)
| PostPrescriptions (body : PrescriptionData) (token : option string).

Inductive TimerCallback :=
| HidePatientSuggestions
| HideInvestigationSuggestions
| TeardownMedicineSuggestions.

(** What a handler does to the world outside the component state. *)
Inductive Action :=
| AxiosRequest (r : Request)
| SetTimeout (cb : TimerCallback) (delay : nat)
| ToastError (msg : Js.value)
| ConsoleError (msg : string)
| Navigate (to : string).

Inductive Response :=
| PatientsData (l : list Patient)
| InvestigationsData (l : list Investigation)
| MedicinesData (l : list Medicine)
| Created (id : string).

Inductive Outcome := Fulfilled (r : Response) | Rejected (e : HttpError).

(** *** Setters *)

Definition setFormData (v : FormData) (st : State) : State :=
  {| formData := v; medicines := medicines st;
     medicineSearch := medicineSearch st;
     medicineSuggestions := medicineSuggestions st;
     activeSearchIndex := activeSearchIndex st; loading := loading st;
     patientSuggestions := patientSuggestions st;
     showPatientSuggestions := showPatientSuggestions st;
     investigationSuggestions := investigationSuggestions st;
     showInvestigationSuggestions := showInvestigationSuggestions st |}.

Definition setMedicines (v : list MedicineLine) (st : State) : State :=
  {| formData := formData st; medicines := v;
     medicineSearch := medicineSearch st;
     medicineSuggestions := medicineSuggestions st;
     activeSearchIndex := activeSearchIndex st; loading := loading st;
     patientSuggestions := patientSuggestions st;
     showPatientSuggestions := showPatientSuggestions st;
     investigationSuggestions := investigationSuggestions st;
     showInvestigationSuggestions := showInvestigationSuggestions st |}.

Definition setMedicineSearch (v : string) (st : State) : State :=
  {| formData := formData st; medicines := medicines st;
     medicineSearch := v;
     medicineSuggestions := medicineSuggestions st;
     activeSearchIndex := activeSearchIndex st; loading := loading st;
     patientSuggestions := patientSuggestions st;
     showPatientSuggestions := showPatientSuggestions st;
     investigationSuggestions := investigationSuggestions st;
     showInvestigationSuggestions := showInvestigationSuggestions st |}.

Definition setMedicineSuggestions (v : list Medicine) (st : State) : State :=
  {| formData := formData st; medicines := medicines st;
     medicineSearch := medicineSearch st;
     medicineSuggestions := v;
     activeSearchIndex := activeSearchIndex st; loading := loading st;
     patientSuggestions := patientSuggestions st;
     showPatientSuggestions := showPatientSuggestions st;
     investigationSuggestions := investigationSuggestions st;
     showInvestigationSuggestions := showInvestigationSuggestions st |}.

Definition setActiveSearchIndex (v : option nat) (st : State) : State :=
  {| formData := formData st; medicines := medicines st;
     medicineSearch := medicineSearch st;
     medicineSuggestions := medicineSuggestions st;
     activeSearchIndex := v; loading := loading st;
     patientSuggestions := patientSuggestions st;
     showPatientSuggestions := showPatientSuggestions st;
     investigationSuggestions := investigationSuggestions st;
     showInvestigationSuggestions := showInvestigationSuggestions st |}.

Definition setLoading (v : bool) (st : State) : State :=
  {| formData := formData st; medicines := medicines st;
     medicineSearch := medicineSearch st;
     medicineSuggestions := medicineSuggestions st;
     activeSearchIndex := activeSearchIndex st; loading := v;
     patientSuggestions := patientSuggestions st;
     showPatientSuggestions := showPatientSuggestions st;
     investigationSuggestions := investigationSuggestions st;
     showInvestigationSuggestions := showInvestigationSuggestions st |}.

Definition setPatientSuggestions (v : list Patient) (st : State) : State :=
  {| formData := formData st; medicines := medicines st;
     medicineSearch := medicineSearch st;
     medicineSuggestions := medicineSuggestions st;
     activeSearchIndex := activeSearchIndex st; loading := loading st;
     patientSuggestions := v;
     showPatientSuggestions := showPatientSuggestions st;
     investigationSuggestions := investigationSuggestions st;
     showInvestigationSuggestions := showInvestigationSuggestions st |}.

Definition setShowPatientSuggestions (v : bool) (st : State) : State :=
  {| formData := formData st; medicines := medicines st;
     medicineSearch := medicineSearch st;
     medicineSuggestions := medicineSuggestions st;
     activeSearchIndex := activeSearchIndex st; loading := loading st;
     patientSuggestions := patientSuggestions st;
     showPatientSuggestions := v;
     investigationSuggestions := investigationSuggestions st;
     showInvestigationSuggestions := showInvestigationSuggestions st |}.

Definition setInvestigationSuggestions (v : list Investigation) (st : State)
  : State :=
  {| formData := formData st; medicines := medicines st;
     medicineSearch := medicineSearch st;
     medicineSuggestions := medicineSuggestions st;
     activeSearchIndex := activeSearchIndex st; loading := loading st;
     patientSuggestions := patientSuggestions st;
     showPatientSuggestions := showPatientSuggestions st;
     investigationSuggestions := v;
     showInvestigationSuggestions := showInvestigationSuggestions st |}.

Definition setShowInvestigationSuggestions (v : bool) (st : State) : State :=
  {| formData := formData st; medicines := medicines st;
     medicineSearch := medicineSearch st;
     medicineSuggestions := medicineSuggestions st;
     activeSearchIndex := activeSearchIndex st; loading := loading st;
     patientSuggestions := patientSuggestions st;
     showPatientSuggestions := showPatientSuggestions st;
     investigationSuggestions := investigationSuggestions st;
     showInvestigationSuggestions := v |}.

(** [{...formData, key: value}] for the keys the page writes. *)
Definition with_patient_name (v : string) (fd : FormData) : FormData :=
  {| patient_name := v; patient_age := patient_age fd; date := date fd;
     diagnosis := diagnosis fd; investigations := investigations fd;
     doctor_notes := doctor_notes fd |}.

Definition with_patient_age (v : string) (fd : FormData) : FormData :=
  {| patient_name := patient_name fd; patient_age := v; date := date fd;
     diagnosis := diagnosis fd; investigations := investigations fd;
     doctor_notes := doctor_notes fd |}.

Definition with_date (v : string) (fd : FormData) : FormData :=
  {| patient_name := patient_name fd; patient_age := patient_age fd;
     date := v; diagnosis := diagnosis fd;
     investigations := investigations fd; doctor_notes := doctor_notes fd |}.

Definition with_diagnosis (v : string) (fd : FormData) : FormData :=
  {| patient_name := patient_name fd; patient_age := patient_age fd;
     date := date fd; diagnosis := v;
     investigations := investigations fd; doctor_notes := doctor_notes fd |}.

Definition with_investigations (v : string) (fd : FormData) : FormData :=
  {| patient_name := patient_name fd; patient_age := patient_age fd;
     date := date fd; diagnosis := diagnosis fd;
     investigations := v; doctor_notes := doctor_notes fd |}.

Definition with_doctor_notes (v : string) (fd : FormData) : FormData :=
  {| patient_name := patient_name fd; patient_age := patient_age fd;
     date := date fd; diagnosis := diagnosis fd;
     investigations := investigations fd; doctor_notes := v |}.

(** [row[field] = value], with the string an input element reports. *)
Definition set_field (f : Field) (v : string) (row : MedicineLine)
  : MedicineLine :=
  match f with
  | name_field =>
      {| name := v; dosage := dosage row; frequency := frequency row |}
  | dosage_field =>
      {| name := name row; dosage := Js.Str v; frequency := frequency row |}
  | frequency_field =>
      {| name := name row; dosage := dosage row; frequency := Js.Str v |}
  end.

Definition emptyLine : MedicineLine :=
  {| name := ""; dosage := Js.Str ""; frequency := Js.Str "" |}.

(** The state of the first render; [today] is
    [format(new Date(), 'yyyy-MM-dd')]. *)
Definition initialState (today : string) : State :=
  {| formData := {| patient_name := ""; patient_age := ""; date := today;
                    diagnosis := ""; investigations := "";
                    doctor_notes := "" |};
     medicines := [emptyLine];
     medicineSearch := "";
     medicineSuggestions := [];
     activeSearchIndex := None;
     loading := false;
     patientSuggestions := [];
     showPatientSuggestions := false;
     investigationSuggestions := [];
     showInvestigationSuggestions := false |}.


(** *** Handlers

    A handler receives the state of the render whose closure it is and
    returns the state after its batched [set...] calls together with the
    actions it emitted.  A handler that indexes a row that does not exist
    throws a [TypeError]; that is [None].

    [[...medicines]] copies the array and not the rows, so the assignments
    to [updatedMedicines[index]] also change the row object the previous
    array holds.  The previous array is never read again once the new one is
    set, so rows are plain values here. *)

Definition Result : Type := State * list Action.

(** [searchPatients] up to its [await]. *)
Definition searchPatients (ls : Storage) (query : string) : list Action :=
  [AxiosRequest (GetPatientsSearch query (getItem "token" ls))].

(** [searchPatients] from its [await] on. *)
Definition searchPatients_settled (o : Outcome) (st : State) : option Result :=
  match o with
  | Fulfilled (PatientsData l) => Some (setPatientSuggestions l st, [])
  | Fulfilled _ => None
  | Rejected _ => Some (st, [ConsoleError "Failed to search patients"])
  end.

Definition handlePatientNameChange (ls : Storage) (value : string)
  (st : State) : Result :=
  let st1 := setFormData (with_patient_name value (formData st)) st in
  if Js.truthy_string value then
    (setShowPatientSuggestions true st1, searchPatients ls value)
  else
    (setShowPatientSuggestions false (setPatientSuggestions [] st1), []).

Definition selectPatient (patient : Patient) (st : State) : Result :=
  let age :=
    if Js.truthy (pat_age patient) then Js.toString (pat_age patient)
    else "" in
  let fd :=
    with_patient_age age (with_patient_name (pat_name patient) (formData st)) in
  (setShowPatientSuggestions false
     (setPatientSuggestions [] (setFormData fd st)), []).

(** The [onFocus] and [onBlur] arrows of the patient name input. *)
Definition patientNameFocus (ls : Storage) (st : State) : Result :=
  if Js.truthy_string (patient_name (formData st)) then
    (setShowPatientSuggestions true st,
     searchPatients ls (patient_name (formData st)))
  else (st, []).

Definition patientNameBlur (st : State) : Result :=
  (st, [SetTimeout HidePatientSuggestions 200]).

Definition searchInvestigations (ls : Storage) (query : string)
  : list Action :=
  [AxiosRequest (GetInvestigationsSearch query (getItem "token" ls))].

Definition searchInvestigations_settled (o : Outcome) (st : State)
  : option Result :=
  match o with
  | Fulfilled (InvestigationsData l) =>
      Some (setInvestigationSuggestions l st, [])
  | Fulfilled _ => None
  | Rejected _ => Some (st, [ConsoleError "Failed to search investigations"])
  end.

Definition handleInvestigationChange (ls : Storage) (value : string)
  (st : State) : Result :=
  let st1 := setFormData (with_investigations value (formData st)) st in
  if Js.truthy_string value then
    (setShowInvestigationSuggestions true st1, searchInvestigations ls value)
  else
    (setShowInvestigationSuggestions false
       (setInvestigationSuggestions [] st1), []).

Definition selectInvestigation (investigation : Investigation) (st : State)
  : Result :=
  let fd := with_investigations (inv_name investigation) (formData st) in
  (setShowInvestigationSuggestions false
     (setInvestigationSuggestions [] (setFormData fd st)), []).

Definition investigationsFocus (ls : Storage) (st : State) : Result :=
  if Js.truthy_string (investigations (formData st)) then
    (setShowInvestigationSuggestions true st,
     searchInvestigations ls (investigations (formData st)))
  else (st, []).

Definition investigationsBlur (st : State) : Result :=
  (st, [SetTimeout HideInvestigationSuggestions 200]).

Definition searchMedicines (ls : Storage) (query : string) : list Action :=
  [AxiosRequest (GetMedicinesSearch query (getItem "token" ls))].

Definition searchMedicines_settled (o : Outcome) (st : State)
  : option Result :=
  match o with
  | Fulfilled (MedicinesData l) => Some (setMedicineSuggestions l st, [])
  | Fulfilled _ => None
  | Rejected _ => Some (st, [ConsoleError "Failed to search medicines"])
  end.

(** [`${row.name} ${row.dosage} ${row.frequency}`.trim()]. *)
Definition searchTermOf (row : MedicineLine) : string :=
  Js.trim (name row +:+ " " +:+ Js.toString (dosage row) +:+ " "
           +:+ Js.toString (frequency row)).

(** The three call sites pass ['name'], ['dosage'] and ['frequency'], so
    the source's test on [field] always succeeds. *)
Definition handleMedicineInputChange (index : nat) (field : Field)
  (value : string) (st : State) : option Result :=
  row ← medicines st !! index;
  let row' := set_field field value row in
  let updatedMedicines := <[index := row']> (medicines st) in
  Some (setMedicineSearch (searchTermOf row')
          (setActiveSearchIndex (Some index)
             (setMedicines updatedMedicines st)), []).

Definition assign_name (v : string) (row : MedicineLine) : MedicineLine :=
  {| name := v; dosage := dosage row; frequency := frequency row |}.
Definition assign_dosage (v : Js.value) (row : MedicineLine) : MedicineLine :=
  {| name := name row; dosage := v; frequency := frequency row |}.
Definition assign_frequency (v : Js.value) (row : MedicineLine)
  : MedicineLine :=
  {| name := name row; dosage := dosage row; frequency := v |}.

Definition selectMedicine (index : nat) (medicine : Medicine) (st : State)
  : option Result :=
  row ← medicines st !! index;
  let row1 := assign_name (med_name medicine) row in
  let row2 := assign_dosage (Js.or_else (med_dosage medicine) (Js.Str "")) row1 in
  let row3 := assign_frequency (med_frequency medicine) row2 in
  let updatedMedicines := <[index := row3]> (medicines st) in
  Some (setMedicineSearch ""
          (setActiveSearchIndex None
             (setMedicineSuggestions []
                (setMedicines updatedMedicines st))), []).

Definition addMedicine (st : State) : Result :=
  (setMedicines (medicines st ++ [emptyLine]) st, []).

(** [l.filter((x, i) => p(x, i))], counting from [i]. *)
Fixpoint filter_indexed {A} (p : A → nat → bool) (i : nat) (l : list A)
  : list A :=
  match l with
  | [] => []
  | x :: r =>
      if p x i then x :: filter_indexed p (S i) r
      else filter_indexed p (S i) r
  end.

Definition removeMedicine (index : nat) (st : State) : Result :=
  if (1 <? length (medicines st))%nat then
    let updatedMedicines :=
      filter_indexed (λ _ i, negb (i =? index)%nat) 0 (medicines st) in
    (setMedicines updatedMedicines st, [])
  else (st, []).

Definition prescriptionData (st : State) : PrescriptionData :=
  let fd := formData st in
  {| body_patient_name := patient_name fd;
     body_patient_age :=
       if Js.truthy_string (patient_age fd)
       then Js.Num (Js.parseInt (patient_age fd)) else Js.Null;
     body_date := date fd;
     body_diagnosis := diagnosis fd;
     body_investigations := investigations fd;
     body_doctor_notes := doctor_notes fd;
     body_medicines := medicines st |}.

(** [handleSubmit] up to its [await]. *)
Definition handleSubmit (ls : Storage) (st : State) : Result :=
  if negb (Js.truthy_string (patient_name (formData st)))
     || existsb (λ m, negb (Js.truthy_string (name m))
                      || negb (Js.truthy (frequency m))) (medicines st)
  then (st, [ToastError (Js.Str "Please fill all required fields")])
  else
    (setLoading true st,
     [AxiosRequest (PostPrescriptions (prescriptionData st)
                      (getItem "token" ls))]).

(** [handleSubmit] from its [await] on. *)
Definition handleSubmit_settled (o : Outcome) (st : State) : option Result :=
  match o with
  | Fulfilled (Created id) =>
      Some (setLoading false st, [Navigate ("/prescription/" +:+ id)])
  | Fulfilled _ => None
  | Rejected e =>
      Some (setLoading false st,
            [ToastError (Js.or_else (detail e)
                           (Js.Str "Failed to create prescription"))])
  end.

Definition handleInputFocus (index : nat) (st : State) : option Result :=
  row ← medicines st !! index;
  let st1 := setActiveSearchIndex (Some index) st in
  let searchTerm := searchTermOf row in
  Some (if Js.truthy_string searchTerm
        then setMedicineSearch searchTerm st1 else st1, []).

Definition handleInputBlur (st : State) : Result :=
  (st, [SetTimeout TeardownMedicineSuggestions 200]).

(** The bodies of the three [setTimeout] callbacks. *)
Definition runTimerCallback (cb : TimerCallback) (st : State) : State :=
  match cb with
  | HidePatientSuggestions => setShowPatientSuggestions false st
  | HideInvestigationSuggestions => setShowInvestigationSuggestions false st
  | TeardownMedicineSuggestions =>
      setMedicineSuggestions [] (setActiveSearchIndex None st)
  end.

(** *** The effect on [[medicineSearch, activeSearchIndex]] *)

Definition medicineSearchEffect (ls : Storage) (st : State) : Result :=
  if Js.truthy_string (medicineSearch st)
     && bool_decide (activeSearchIndex st ≠ None)
  then (st, searchMedicines ls (medicineSearch st))
  else (setMedicineSuggestions [] st, []).

Definition depsChanged (prev next : State) : bool :=
  negb (String.eqb (medicineSearch prev) (medicineSearch next))
  || negb (bool_decide (activeSearchIndex prev = activeSearchIndex next)).

(** The render that follows a handler: the effect runs when one of its
    dependencies differs from the previous render. *)
Definition commit (ls : Storage) (prev : State) (r : Result) : Result :=
  if depsChanged prev r.1 then
    let '(st', acts) := medicineSearchEffect ls r.1 in (st', r.2 ++ acts)
  else r.

(** The first render: the effect always runs. *)
Definition mount (ls : Storage) (today : string) : Result :=
  medicineSearchEffect ls (initialState today).

(** *** What the JSX shows *)

Definition medicineDropdownOpen (st : State) (index : nat) : bool :=
  bool_decide (activeSearchIndex st = Some index)
  && (0 <? length (medicineSuggestions st))%nat.

Definition patientDropdownOpen (st : State) : bool :=
  showPatientSuggestions st && (0 <? length (patientSuggestions st))%nat.

Definition investigationDropdownOpen (st : State) : bool :=
  showInvestigationSuggestions st
  && (0 <? length (investigationSuggestions st))%nat.


(** *** The page in the browser

    Requests in flight, pending timers, the clock and the log of everything
    the page emitted.  [issuer] is a ghost field: the row that owned the
    suggestion list when a medicine search was issued.  The source keeps no
    such record; it is only here so that statements can speak about it. *)

Record Pending := { request : Request; issuer : option nat }.

Record Timer := { due : nat; callback : TimerCallback }.

Record World := {
  component : State;
  localStorage : Storage;
  inflight : list Pending;
  timers : list Timer;
  now : nat;
  output : list Action
}.

Inductive Event :=
| PatientNameChange (value : string)
| PatientNameFocus
| PatientNameBlur
| ClickPatient (patient : Patient)
| PatientAgeChange (value : string)
| DateChange (value : string)
| DiagnosisChange (value : string)
| InvestigationChange (value : string)
| InvestigationsFocus
| InvestigationsBlur
| ClickInvestigation (investigation : Investigation)
| DoctorNotesChange (value : string)
| MedicineInputChange (index : nat) (field : Field) (value : string)
| InputFocus (index : nat)
| InputBlur (index : nat)
| ClickMedicine (index : nat) (medicine : Medicine)
| ClickAddMedicine
| ClickRemoveMedicine (index : nat)
| SubmitForm
| Settle (n : nat) (o : Outcome)
| Elapse (ms : nat).

Definition issuerOf (st : State) (r : Request) : option nat :=
  match r with
  | GetMedicinesSearch _ _ => activeSearchIndex st
  | _ => None
  end.

Definition perform (st : State) (w : World) (a : Action) : World :=
  {| component := component w;
     localStorage := localStorage w;
     inflight :=
       match a with
       | AxiosRequest r =>
           inflight w ++ [{| request := r; issuer := issuerOf st r |}]
       | _ => inflight w
       end;
     timers :=
       match a with
       | SetTimeout cb delay =>
           timers w ++ [{| due := now w + delay; callback := cb |}]
       | _ => timers w
       end;
     now := now w;
     output := output w ++ [a] |}.

Definition withComponent (st : State) (w : World) : World :=
  {| component := st; localStorage := localStorage w; inflight := inflight w;
     timers := timers w; now := now w; output := output w |}.

(** A handler's result reaches the world: render, effect, then the actions. *)
Definition apply (w : World) (r : Result) : World :=
  let r' := commit (localStorage w) (component w) r in
  foldl (perform r'.1) (withComponent r'.1 w) r'.2.

(** The handler the JSX attaches to each user event, under the condition
    that renders the element the event comes from. *)
Definition handle (ls : Storage) (e : Event) (st : State) : option Result :=
  match e with
  | PatientNameChange v => Some (handlePatientNameChange ls v st)
  | PatientNameFocus => Some (patientNameFocus ls st)
  | PatientNameBlur => Some (patientNameBlur st)
  | ClickPatient p =>
      if patientDropdownOpen st && bool_decide (p ∈ patientSuggestions st)
      then Some (selectPatient p st) else None
  | PatientAgeChange v =>
      Some (setFormData (with_patient_age v (formData st)) st, [])
  | DateChange v => Some (setFormData (with_date v (formData st)) st, [])
  | DiagnosisChange v =>
      Some (setFormData (with_diagnosis v (formData st)) st, [])
  | InvestigationChange v => Some (handleInvestigationChange ls v st)
  | InvestigationsFocus => Some (investigationsFocus ls st)
  | InvestigationsBlur => Some (investigationsBlur st)
  | ClickInvestigation i =>
      if investigationDropdownOpen st
         && bool_decide (i ∈ investigationSuggestions st)
      then Some (selectInvestigation i st) else None
  | DoctorNotesChange v =>
      Some (setFormData (with_doctor_notes v (formData st)) st, [])
  | MedicineInputChange index field v =>
      handleMedicineInputChange index field v st
  | InputFocus index => handleInputFocus index st
  | InputBlur index =>
      if (index <? length (medicines st))%nat
      then Some (handleInputBlur st) else None
  | ClickMedicine index m =>
      if medicineDropdownOpen st index
         && bool_decide (m ∈ medicineSuggestions st)
      then selectMedicine index m st else None
  | ClickAddMedicine => Some (addMedicine st)
  | ClickRemoveMedicine index =>
      if (1 <? length (medicines st))%nat
         && (index <? length (medicines st))%nat
      then Some (removeMedicine index st) else None
  | SubmitForm =>
      if loading st then None else Some (handleSubmit ls st)
  | Settle _ _ | Elapse _ => None
  end.

(** The continuation a settled request resumes. *)
Definition settled (r : Request) (o : Outcome) (st : State) : option Result :=
  match r with
  | GetPatientsSearch _ _ => searchPatients_settled o st
  | GetInvestigationsSearch _ _ => searchInvestigations_settled o st
  | GetMedicinesSearch _ _ => searchMedicines_settled o st
  | PostPrescriptions _ _ => handleSubmit_settled o st
  end.

Definition fire (w : World) (cb : TimerCallback) : World :=
  apply w (runTimerCallback cb (component w), []).

(** The clock advances by [ms]; the timers that are due run in the order
    they were set (all delays are equal). *)
Definition elapse (ms : nat) (w : World) : World :=
  let t := now w + ms in
  let ready := filter (λ tm, due tm ≤ t) (timers w) in
  let rest := filter (λ tm, t < due tm) (timers w) in
  foldl fire
    {| component := component w; localStorage := localStorage w;
       inflight := inflight w; timers := rest; now := t;
       output := output w |}
    (callback <$> ready).

Definition step (w : World) (e : Event) : option World :=
  match e with
  | Settle n o =>
      p ← inflight w !! n;
      r ← settled (request p) o (component w);
      Some (apply
              {| component := component w; localStorage := localStorage w;
                 inflight := delete n (inflight w); timers := timers w;
                 now := now w; output := output w |} r)
  | Elapse ms => Some (elapse ms w)
  | _ => r ← handle (localStorage w) e (component w); Some (apply w r)
  end.

Fixpoint run (w : World) (es : list Event) : option World :=
  match es with
  | [] => Some w
  | e :: es' => w' ← step w e; run w' es'
  end.

Definition initialWorld (ls : Storage) (today : string) : World :=
  let r := mount ls today in
  foldl (perform r.1)
    {| component := r.1; localStorage := ls; inflight := []; timers := [];
       now := 0; output := [] |} r.2.

Inductive reachable (ls : Storage) (today : string) : World → Prop :=
| reachable_initial : reachable ls today (initialWorld ls today)
| reachable_step w e w' :
    reachable ls today w → step w e = Some w' → reachable ls today w'.

End CreatePrescription.

(** ** [pages/CreatePrescription.js], the variant that searches on the
       medicine name only

    No patient or investigation autocomplete, no focus and blur handlers;
    the catalog entry carries [common_dosages] instead of a dosage and a
    frequency, and the dosage input is marked as required. *)

Module CreatePrescriptionNameOnly.

Record MedicineLine := {
  name : string;
  dosage : string;
  frequency : string
}.

Inductive Field := name_field | dosage_field | frequency_field.

Record Medicine := {
  med_id : Z;
  med_name : string;
  common_dosages : list string
}.

Record FormData := {
  patient_name : string;
  patient_age : string;
  date : string;
  doctor_notes : string
}.

Record PrescriptionData := {
  body_patient_name : string;
  body_patient_age : Js.value;
  body_date : string;
  body_doctor_notes : string;
  body_medicines : list MedicineLine
}.

Record State := {
  formData : FormData;
  medicines : list MedicineLine;
  medicineSearch : string;
  medicineSuggestions : list Medicine;
  activeSearchIndex : option nat;
  loading : bool
}.

Inductive Request :=
| GetMedicinesSearch (q : string) (token : option string)
| PostPrescriptions (body : PrescriptionData) (token : option string).

Inductive Action :=
| AxiosRequest (r : Request)
| ToastError (msg : Js.value)
| ToastSuccess (msg : string)
| ConsoleError (msg : string)
| Navigate (to : string).

Inductive Response :=
| MedicinesData (l : list Medicine)
| Created (id : string).

Inductive Outcome := Fulfilled (r : Response) | Rejected (e : HttpError).

Definition setMedicines (v : list MedicineLine) (st : State) : State :=
  {| formData := formData st; medicines := v;
     medicineSearch := medicineSearch st;
     medicineSuggestions := medicineSuggestions st;
     activeSearchIndex := activeSearchIndex st; loading := loading st |}.

Definition setMedicineSearch (v : string) (st : State) : State :=
  {| formData := formData st; medicines := medicines st;
     medicineSearch := v;
     medicineSuggestions := medicineSuggestions st;
     activeSearchIndex := activeSearchIndex st; loading := loading st |}.

Definition setMedicineSuggestions (v : list Medicine) (st : State) : State :=
  {| formData := formData st; medicines := medicines st;
     medicineSearch := medicineSearch st;
     medicineSuggestions := v;
     activeSearchIndex := activeSearchIndex st; loading := loading st |}.

Definition setActiveSearchIndex (v : option nat) (st : State) : State :=
  {| formData := formData st; medicines := medicines st;
     medicineSearch := medicineSearch st;
     medicineSuggestions := medicineSuggestions st;
     activeSearchIndex := v; loading := loading st |}.

Definition setLoading (v : bool) (st : State) : State :=
  {| formData := formData st; medicines := medicines st;
     medicineSearch := medicineSearch st;
     medicineSuggestions := medicineSuggestions st;
     activeSearchIndex := activeSearchIndex st; loading := v |}.

Definition set_field (f : Field) (v : string) (row : MedicineLine)
  : MedicineLine :=
  match f with
  | name_field =>
      {| name := v; dosage := dosage row; frequency := frequency row |}
  | dosage_field =>
      {| name := name row; dosage := v; frequency := frequency row |}
  | frequency_field =>
      {| name := name row; dosage := dosage row; frequency := v |}
  end.

Definition emptyLine : MedicineLine :=
  {| name := ""; dosage := ""; frequency := "" |}.

Definition initialState (today : string) : State :=
  {| formData := {| patient_name := ""; patient_age := ""; date := today;
                    doctor_notes := "" |};
     medicines := [emptyLine];
     medicineSearch := "";
     medicineSuggestions := [];
     activeSearchIndex := None;
     loading := false |}.

Definition Result : Type := State * list Action.

Definition searchMedicines (ls : Storage) (query : string) : list Action :=
  [AxiosRequest (GetMedicinesSearch query (getItem "token" ls))].

Definition searchMedicines_settled (o : Outcome) (st : State)
  : option Result :=
  match o with
  | Fulfilled (MedicinesData l) => Some (setMedicineSuggestions l st, [])
  | Fulfilled _ => None
  | Rejected _ => Some (st, [ConsoleError "Failed to search medicines"])
  end.

Definition handleMedicineInputChange (index : nat) (field : Field)
  (value : string) (st : State) : option Result :=
  row ← medicines st !! index;
  let updatedMedicines := <[index := set_field field value row]> (medicines st) in
  let st1 := setMedicines updatedMedicines st in
  Some (match field with
        | name_field =>
            setMedicineSearch value (setActiveSearchIndex (Some index) st1)
        | _ => st1
        end, []).

Definition assign_name (v : string) (row : MedicineLine) : MedicineLine :=
  {| name := v; dosage := dosage row; frequency := frequency row |}.

Definition selectMedicine (index : nat) (medicine : Medicine) (st : State)
  : option Result :=
  row ← medicines st !! index;
  let updatedMedicines :=
    <[index := assign_name (med_name medicine) row]> (medicines st) in
  Some (setMedicineSearch ""
          (setActiveSearchIndex None
             (setMedicineSuggestions []
                (setMedicines updatedMedicines st))), []).

Definition addMedicine (st : State) : Result :=
  (setMedicines (medicines st ++ [emptyLine]) st, []).

Definition removeMedicine (index : nat) (st : State) : Result :=
  if (1 <? length (medicines st))%nat then
    let updatedMedicines :=
      CreatePrescription.filter_indexed
        (λ _ i, negb (i =? index)%nat) 0 (medicines st) in
    (setMedicines updatedMedicines st, [])
  else (st, []).

Definition prescriptionData (st : State) : PrescriptionData :=
  let fd := formData st in
  {| body_patient_name := patient_name fd;
     body_patient_age :=
       if Js.truthy_string (patient_age fd)
       then Js.Num (Js.parseInt (patient_age fd)) else Js.Null;
     body_date := date fd;
     body_doctor_notes := doctor_notes fd;
     body_medicines := medicines st |}.

Definition handleSubmit (ls : Storage) (st : State) : Result :=
  if negb (Js.truthy_string (patient_name (formData st)))
     || existsb (λ m, negb (Js.truthy_string (name m))
                      || negb (Js.truthy_string (dosage m))
                      || negb (Js.truthy_string (frequency m))) (medicines st)
  then (st, [ToastError (Js.Str "Please fill all required fields")])
  else
    (setLoading true st,
     [AxiosRequest (PostPrescriptions (prescriptionData st)
                      (getItem "token" ls))]).

Definition handleSubmit_settled (o : Outcome) (st : State) : option Result :=
  match o with
  | Fulfilled (Created id) =>
      Some (setLoading false st,
            [ToastSuccess "Prescription created successfully!";
             Navigate ("/prescription/" +:+ id)])
  | Fulfilled _ => None
  | Rejected e =>
      Some (setLoading false st,
            [ToastError (Js.or_else (detail e)
                           (Js.Str "Failed to create prescription"))])
  end.

Definition medicineSearchEffect (ls : Storage) (st : State) : Result :=
  if Js.truthy_string (medicineSearch st)
     && bool_decide (activeSearchIndex st ≠ None)
  then (st, searchMedicines ls (medicineSearch st))
  else (setMedicineSuggestions [] st, []).

Definition depsChanged (prev next : State) : bool :=
  negb (String.eqb (medicineSearch prev) (medicineSearch next))
  || negb (bool_decide (activeSearchIndex prev = activeSearchIndex next)).

Definition commit (ls : Storage) (prev : State) (r : Result) : Result :=
  if depsChanged prev r.1 then
    let '(st', acts) := medicineSearchEffect ls r.1 in (st', r.2 ++ acts)
  else r.

Definition medicineDropdownOpen (st : State) (index : nat) : bool :=
  bool_decide (activeSearchIndex st = Some index)
  && (0 <? length (medicineSuggestions st))%nat.

End CreatePrescriptionNameOnly.

(** ** [App.js]: the routing gate *)

Module App.

Inductive Location :=
| LoginPath
| RootPath
| CreatePath
| PrescriptionPath (id : string)
| OtherPath (p : string).

Inductive View :=
| LoadingView
| LoginView
| DashboardView
| CreatePrescriptionView
| ViewPrescriptionView (id : string)
| NoMatch.

Inductive Element := Render (v : View) | NavigateTo (l : Location).

#[global] Instance View_eq_dec : EqDecision View.
Proof. solve_decision. Defined.

Fixpoint hasSlash (s : string) : bool :=
  match s with
  | String c r => Ascii.eqb c "/" || hasSlash r
  | EmptyString => false
  end.

(** The route pattern a path falls under, for the spellings the pages
    navigate to; [:id] is one non-empty segment.  What the router normalises
    before it matches (letter case, a trailing slash, a query or a hash,
    percent escapes, dot segments) is not represented: the function is only
    to be read on paths written as the route patterns are, with a plain
    identifier. *)
Definition matchPath (p : string) : Location :=
  if String.eqb p "/login" then LoginPath
  else if String.eqb p "/" then RootPath
  else if String.eqb p "/create" then CreatePath
  else if String.prefix "/prescription/" p then
    let id := String.substring 14 (String.length p - 14) p in
    if Js.truthy_string id && negb (hasSlash id)
    then PrescriptionPath id else OtherPath p
  else OtherPath p.

Record State := { isAuthenticated : bool; loading : bool }.

Definition initialState : State :=
  {| isAuthenticated := false; loading := true |}.

(** The [useEffect(..., [])] of [App]: it runs once, after the first render. *)
Definition mountEffect (ls : Storage) (st : State) : State :=
  {| isAuthenticated :=
       match getItem "token" ls with
       | Some token => Js.truthy_string token
       | None => false
       end;
     loading := false |}.

(** The [element] of the route that matches. *)
Definition routeElement (st : State) (l : Location) : Element :=
  match l with
  | LoginPath =>
      if negb (isAuthenticated st) then Render LoginView
      else NavigateTo RootPath
  | RootPath =>
      if isAuthenticated st then Render DashboardView
      else NavigateTo LoginPath
  | CreatePath =>
      if isAuthenticated st then Render CreatePrescriptionView
      else NavigateTo LoginPath
  | PrescriptionPath id =>
      if isAuthenticated st then Render (ViewPrescriptionView id)
      else NavigateTo LoginPath
  | OtherPath _ => Render NoMatch
  end.

(** Follow [<Navigate>] elements until a view is rendered. *)
Fixpoint settle (fuel : nat) (st : State) (l : Location)
  : option (Location * View) :=
  match fuel with
  | 0 => None
  | S fuel' =>
      match routeElement st l with
      | Render v => Some (l, v)
      | NavigateTo l' => settle fuel' st l'
      end
  end.

End App.

(** ** [pages/Dashboard.js] and [pages/ViewPrescription.js]

    Both variants of the dashboard have the same [fetchPrescriptions] and
    [handleLogout]. *)

Module Pages.

Inductive Action :=
| AxiosGet (url : string) (token : option string)
| ToastError (msg : string)
| Navigate (to : string).

Record PrescriptionSummary := { presc_id : string; presc_patient : string }.

Inductive Outcome (A : Type) := Fulfilled (data : A) | Rejected (e : HttpError).
Arguments Fulfilled {A} data.
Arguments Rejected {A} e.

End Pages.

Module Dashboard.
Import Pages.

Record State := {
  prescriptions : list PrescriptionSummary;
  searchQuery : string;
  loading : bool
}.

Definition initialState : State :=
  {| prescriptions := []; searchQuery := ""; loading := true |}.

(** [fetchPrescriptions] up to its [await]; URLs are written relative to
    [BACKEND_URL]. *)
Definition fetchPrescriptions (ls : Storage) (st : State) : list Action :=
  let url :=
    if Js.truthy_string (searchQuery st)
    then "/api/prescriptions?patient_name=" +:+ searchQuery st
    else "/api/prescriptions" in
  [AxiosGet url (getItem "token" ls)].

(** [fetchPrescriptions] from its [await] on: [try], [catch], [finally]. *)
Definition fetchPrescriptions_settled
  (o : Outcome (list PrescriptionSummary)) (ls : Storage) (st : State)
  : State * Storage * list Action :=
  match o with
  | Fulfilled data =>
      ({| prescriptions := data; searchQuery := searchQuery st;
          loading := false |}, ls, [])
  | Rejected _ =>
      ({| prescriptions := prescriptions st; searchQuery := searchQuery st;
          loading := false |}, ls, [ToastError "Failed to fetch prescriptions"])
  end.

Definition handleLogout (ls : Storage) : Storage * list Action :=
  (removeItem "doctorName" (removeItem "token" ls), [Navigate "/login"]).

End Dashboard.

Module ViewPrescription.
Import Pages.

Record State := {
  prescription : option PrescriptionSummary;
  loading : bool
}.

Definition initialState : State := {| prescription := None; loading := true |}.

Definition fetchPrescription (id : string) (ls : Storage) : list Action :=
  [AxiosGet ("/api/prescriptions/" +:+ id) (getItem "token" ls)].

Definition fetchPrescription_settled (o : Outcome PrescriptionSummary)
  (ls : Storage) (st : State) : State * Storage * list Action :=
  match o with
  | Fulfilled data =>
      ({| prescription := Some data; loading := false |}, ls, [])
  | Rejected _ =>
      ({| prescription := prescription st; loading := false |}, ls,
       [ToastError "Failed to fetch prescription"; Navigate "/"])
  end.

End ViewPrescription.

(** ** The application in the browser: gate state, storage and address *)

Module Site.
Import Pages.

Record World := {
  app : App.State;
  localStorage : Storage;
  location : App.Location
}.

(** What is on screen. *)
Definition view (w : World) : option App.View :=
  if App.loading (app w) then Some App.LoadingView
  else snd <$> App.settle 2 (app w) (location w).

(** [navigate(to)]: the address changes and redirects are followed.  Neither
    the gate state nor the storage is touched. *)
Definition navigate (to : string) (w : World) : World :=
  {| app := app w;
     localStorage := localStorage w;
     location :=
       match App.settle 2 (app w) (App.matchPath to) with
       | Some (l, _) => l
       | None => App.matchPath to
       end |}.

(** Opening (or reloading) the application at [path]. *)
Definition load (ls : Storage) (path : string) : World :=
  navigate path
    {| app := App.mountEffect ls App.initialState;
       localStorage := ls;
       location := App.matchPath path |}.

Definition perform (w : World) (a : Action) : World :=
  match a with
  | Navigate to => navigate to w
  | _ => w
  end.

Definition withStorage (ls : Storage) (w : World) : World :=
  {| app := app w; localStorage := ls; location := location w |}.

(** A click on the dashboard's Logout button. *)
Definition logout (w : World) : World :=
  let '(ls, acts) := Dashboard.handleLogout (localStorage w) in
  foldl perform (withStorage ls w) acts.

(** The list request of the dashboard settles. *)
Definition dashboardFetchSettled (o : Outcome (list PrescriptionSummary))
  (st : Dashboard.State) (w : World) : World * list Action :=
  let '(_, ls, acts) :=
    Dashboard.fetchPrescriptions_settled o (localStorage w) st in
  (foldl perform (withStorage ls w) acts, acts).

(** The record request of the prescription page settles. *)
Definition viewFetchSettled (o : Outcome PrescriptionSummary)
  (st : ViewPrescription.State) (w : World) : World * list Action :=
  let '(_, ls, acts) :=
    ViewPrescription.fetchPrescription_settled o (localStorage w) st in
  (foldl perform (withStorage ls w) acts, acts).

End Site.

(** ** [pages/Dashboard.js], the variant with the delete dialog, and the
       medicines manager

    [`${v}`] for a value that is [null] or a string. *)

Definition interpolate (v : option string) : string :=
  match v with
  | Some s => s
  | None => "null"
  end.

Module DashboardWithDelete.

Inductive Action :=
| AxiosGet (url : string) (token : option string)
| AxiosDelete (url : string) (token : option string)
| ToastError (msg : string)
| ToastSuccess (msg : string)
| Navigate (to : string).

Record State := {
  prescriptions : list Pages.PrescriptionSummary;
  searchQuery : string;
  loading : bool;
  deleteDialogOpen : bool;
  prescriptionToDelete : option string
}.

Definition initialState : State :=
  {| prescriptions := []; searchQuery := ""; loading := true;
     deleteDialogOpen := false; prescriptionToDelete := None |}.

(** [fetchPrescriptions] up to its [await]; URLs are written relative to
    [BACKEND_URL]. *)
Definition fetchPrescriptions (ls : Storage) (st : State) : list Action :=
  let url :=
    if Js.truthy_string (searchQuery st)
    then "/api/prescriptions?patient_name=" +:+ searchQuery st
    else "/api/prescriptions" in
  [AxiosGet url (getItem "token" ls)].

Definition fetchPrescriptions_settled
  (o : Pages.Outcome (list Pages.PrescriptionSummary)) (st : State)
  : State * list Action :=
  match o with
  | Pages.Fulfilled data =>
      ({| prescriptions := data; searchQuery := searchQuery st;
          loading := false; deleteDialogOpen := deleteDialogOpen st;
          prescriptionToDelete := prescriptionToDelete st |}, [])
  | Pages.Rejected _ =>
      ({| prescriptions := prescriptions st; searchQuery := searchQuery st;
          loading := false; deleteDialogOpen := deleteDialogOpen st;
          prescriptionToDelete := prescriptionToDelete st |},
       [ToastError "Failed to fetch prescriptions"])
  end.

Definition confirmDelete (prescriptionId : string) (st : State) : State :=
  {| prescriptions := prescriptions st; searchQuery := searchQuery st;
     loading := loading st; deleteDialogOpen := true;
     prescriptionToDelete := Some prescriptionId |}.

(** [handleDelete] up to its [await]. *)
Definition handleDelete (ls : Storage) (st : State) : list Action :=
  [AxiosDelete ("/api/prescriptions/" +:+ interpolate (prescriptionToDelete st))
     (getItem "token" ls)].

(** The [finally] block of [handleDelete]. *)
Definition closeDialog (st : State) : State :=
  {| prescriptions := prescriptions st; searchQuery := searchQuery st;
     loading := loading st; deleteDialogOpen := false;
     prescriptionToDelete := None |}.

(** [handleDelete] from its [await] on.  [clicked] is the state of the
    render whose [handleDelete] was called: the [fetchPrescriptions] it calls
    closes over that render's [searchQuery]. *)
Definition handleDelete_settled (o : Pages.Outcome unit) (ls : Storage)
  (clicked st : State) : State * list Action :=
  match o with
  | Pages.Fulfilled _ =>
      (closeDialog st,
       ToastSuccess "Prescription deleted successfully"
       :: fetchPrescriptions ls clicked)
  | Pages.Rejected _ =>
      (closeDialog st, [ToastError "Failed to delete prescription"])
  end.

End DashboardWithDelete.

Module MedicinesManager.

Inductive Action :=
| AxiosGet (url : string) (token : option string)
| AxiosDelete (url : string) (token : option string)
| ToastError (msg : string)
| ToastSuccess (msg : string).

Record Medicine := {
  id : string;
  name : string;
  dosage : Js.value;
  frequency : Js.value
}.

Record State := {
  medicines : list Medicine;
  loading : bool;
  deleteDialogOpen : bool;
  medicineToDelete : option Medicine
}.

Definition initialState : State :=
  {| medicines := []; loading := true; deleteDialogOpen := false;
     medicineToDelete := None |}.

Definition fetchMedicines (ls : Storage) : list Action :=
  [AxiosGet "/api/medicines" (getItem "token" ls)].

Definition fetchMedicines_settled (o : Pages.Outcome (list Medicine))
  (st : State) : State * list Action :=
  match o with
  | Pages.Fulfilled data =>
      ({| medicines := data; loading := false;
          deleteDialogOpen := deleteDialogOpen st;
          medicineToDelete := medicineToDelete st |}, [])
  | Pages.Rejected _ =>
      ({| medicines := medicines st; loading := false;
          deleteDialogOpen := deleteDialogOpen st;
          medicineToDelete := medicineToDelete st |},
       [ToastError "Failed to fetch medicines"])
  end.

Definition confirmDelete (medicine : Medicine) (st : State) : State :=
  {| medicines := medicines st; loading := loading st;
     deleteDialogOpen := true; medicineToDelete := Some medicine |}.

(** The [finally] block of [handleDelete]. *)
Definition closeDialog (st : State) : State :=
  {| medicines := medicines st; loading := loading st;
     deleteDialogOpen := false; medicineToDelete := None |}.

(** [handleDelete] up to its [await].  With no medicine selected,
    [medicineToDelete.id] throws inside the [try] before anything is sent:
    [catch] and [finally] run at once. *)
Definition handleDelete (ls : Storage) (st : State) : State * list Action :=
  match medicineToDelete st with
  | Some medicine =>
      (st, [AxiosDelete ("/api/medicines/" +:+ id medicine)
              (getItem "token" ls)])
  | None => (closeDialog st, [ToastError "Failed to delete medicine"])
  end.

(** [handleDelete] from its [await] on. *)
Definition handleDelete_settled (o : Pages.Outcome unit) (ls : Storage)
  (st : State) : State * list Action :=
  match o with
  | Pages.Fulfilled _ =>
      (closeDialog st,
       ToastSuccess "Medicine deleted successfully" :: fetchMedicines ls)
  | Pages.Rejected _ =>
      (closeDialog st, [ToastError "Failed to delete medicine"])
  end.

End MedicinesManager.

(** ** Concrete data for the examples *)

Definition paracetamol : CreatePrescription.Medicine :=
  {| CreatePrescription.med_id := 1;
     CreatePrescription.med_name := "Paracetamol";
     CreatePrescription.med_dosage := Js.Str "500mg";
     CreatePrescription.med_frequency := Js.Str "Twice daily" |}.

Definition session : Storage := {[ "token" := "secret" ]}.

Definition freshForm : CreatePrescription.World :=
  CreatePrescription.initialWorld session "2024-05-01".

Definition unauthorized : HttpError :=
  {| kind := AuthError; detail := Js.Undefined |}.

Definition offline : HttpError :=
  {| kind := NetworkError; detail := Js.Undefined |}.

(** The world a trace of events leads to from a fresh form (the fresh form
    itself when some event of the trace is not enabled). *)
Definition afterTrace (es : list CreatePrescription.Event)
  : CreatePrescription.World :=
  default freshForm (CreatePrescription.run freshForm es).

(** The three search requests, as opposed to the submission. *)
Definition isSearch (r : CreatePrescription.Request) : bool :=
  match r with
  | CreatePrescription.PostPrescriptions _ _ => false
  | _ => true
  end.



(** The medicine typeahead is idle: no row owns the suggestion list, the
    list is empty, and no row shows a dropdown. *)
Definition medicineIdle (st : CreatePrescription.State) : Prop :=
  CreatePrescription.activeSearchIndex st = None
  ∧ CreatePrescription.medicineSuggestions st = []
  ∧ ∀ index, CreatePrescription.medicineDropdownOpen st index = false.


(** A storage whose token the backend no longer accepts. *)
Definition expiredSession : Storage := {[ "token" := "expired" ]}.

(** The submission among the requests. *)
Definition isPost (r : CreatePrescription.Request) : bool :=
  match r with
  | CreatePrescription.PostPrescriptions _ _ => true
  | _ => false
  end.

(** The number of submissions in flight. *)
Definition postsInFlight (w : CreatePrescription.World) : nat :=
  length (filter (λ p, isPost (CreatePrescription.request p) = true)
            (CreatePrescription.inflight w)).

(** The token a request was sent with. *)
Definition tokenOf (r : CreatePrescription.Request) : option string :=
  match r with
  | CreatePrescription.GetPatientsSearch _ t
  | CreatePrescription.GetInvestigationsSearch _ t
  | CreatePrescription.GetMedicinesSearch _ t
  | CreatePrescription.PostPrescriptions _ t => t
  end.

(** An action that, if it is a request, carries the token stored in [ls]. *)
Definition carriesToken (ls : Storage) (a : CreatePrescription.Action) : Prop :=
  ∀ r, a = CreatePrescription.AxiosRequest r → tokenOf r = getItem "token" ls.


(** A row in which nothing has been entered. *)
Definition blankRow (row : CreatePrescription.MedicineLine) : Prop :=
  CreatePrescription.searchTermOf row = "".

(** The number of submissions among a handler's actions. *)
Definition postActions (acts : list CreatePrescription.Action) : nat :=
  length (filter (λ a, match a with
                       | CreatePrescription.AxiosRequest r => isPost r
                       | _ => false
                       end = true) acts).

(** A form with a patient name and one complete row; the three searches
    the typing set off have failed. *)
Definition completedForm : CreatePrescription.World :=
  afterTrace
    [CreatePrescription.PatientNameChange "Asha Rao";
     CreatePrescription.MedicineInputChange 0
       CreatePrescription.name_field "Paracetamol";
     CreatePrescription.MedicineInputChange 0
       CreatePrescription.frequency_field "Twice daily";
     CreatePrescription.Settle 0 (CreatePrescription.Rejected offline);
     CreatePrescription.Settle 0 (CreatePrescription.Rejected offline);
     CreatePrescription.Settle 0 (CreatePrescription.Rejected offline)].

(** A string of decimal digits. *)
Fixpoint digitsOnly (s : string) : Prop :=
  match s with
  | String c r => (∃ d, (d < 10)%N ∧ c = pretty_N_char d) ∧ digitsOnly r
  | EmptyString => True
  end.

(** The number of requests among a handler's actions. *)
Definition requestActions (acts : list CreatePrescription.Action) : nat :=
  length (filter (λ a, match a with
                       | CreatePrescription.AxiosRequest _ => true
                       | _ => false
                       end = true) acts).



(** Identifiers that a URL carries unchanged: letters, digits, [-] and [_].
    Nothing in them is a separator, a dot segment or an escape. *)
Definition plainChar (c : ascii) : bool :=
  let n := nat_of_ascii c in
  ((48 <=? n) && (n <=? 57)) || ((65 <=? n) && (n <=? 90))
  || ((97 <=? n) && (n <=? 122)) || (n =? 45) || (n =? 95).

Fixpoint plainSegment (s : string) : bool :=
  match s with
  | String c r => plainChar c && plainSegment r
  | EmptyString => true
  end.

Definition plainId (id : string) : Prop := id ≠ "" ∧ plainSegment id = true.

(** Integers that a JavaScript number holds exactly and prints in full. *)
Definition safeInteger (z : Z) : Prop :=
  (- 9007199254740992 < z < 9007199254740992)%Z.

(** * Properties *)

(** ** Renders and effects of the create page *)

Section CreatePage.
Import CreatePrescription.

Lemma depsChanged_same prev next :
  medicineSearch prev = medicineSearch next →
  activeSearchIndex prev = activeSearchIndex next →
  depsChanged prev next = false.
Proof.
  intros Hq Ha. unfold depsChanged. rewrite Hq, Ha, String.eqb_refl.
  by rewrite bool_decide_eq_true_2.
Qed.

Lemma commit_same ls prev r :
  medicineSearch prev = medicineSearch r.1 →
  activeSearchIndex prev = activeSearchIndex r.1 →
  commit ls prev r = r.
Proof. intros Hq Ha. unfold commit. by rewrite depsChanged_same. Qed.

(** The effect writes nothing but the suggestion list. *)
Lemma effect_frame ls st :
  let st' := (medicineSearchEffect ls st).1 in
  medicines st' = medicines st
  ∧ medicineSearch st' = medicineSearch st
  ∧ activeSearchIndex st' = activeSearchIndex st
  ∧ formData st' = formData st
  ∧ showPatientSuggestions st' = showPatientSuggestions st
  ∧ showInvestigationSuggestions st' = showInvestigationSuggestions st
  ∧ (medicineSuggestions st' = medicineSuggestions st
     ∨ medicineSuggestions st' = []).
Proof.
  unfold medicineSearchEffect.
  destruct (_ && _); simpl; repeat split; auto.
Qed.

Lemma commit_frame ls prev r :
  let st' := (commit ls prev r).1 in
  medicines st' = medicines r.1
  ∧ medicineSearch st' = medicineSearch r.1
  ∧ activeSearchIndex st' = activeSearchIndex r.1
  ∧ formData st' = formData r.1
  ∧ showPatientSuggestions st' = showPatientSuggestions r.1
  ∧ showInvestigationSuggestions st' = showInvestigationSuggestions r.1
  ∧ (medicineSuggestions st' = medicineSuggestions r.1
     ∨ medicineSuggestions st' = []).
Proof.
  unfold commit. destruct (depsChanged prev r.1).
  - pose proof (effect_frame ls r.1) as H.
    destruct (medicineSearchEffect ls r.1) as [st' acts]. exact H.
  - simpl. repeat split; auto.
Qed.

Lemma perform_fold_component st acts w :
  component (foldl (perform st) w acts) = component w.
Proof. revert w. induction acts as [|a acts IH]; intros w; [done|]. simpl. by rewrite IH. Qed.

Lemma perform_fold_storage st acts w :
  localStorage (foldl (perform st) w acts) = localStorage w.
Proof. revert w. induction acts as [|a acts IH]; intros w; [done|]. simpl. by rewrite IH. Qed.

Lemma perform_fold_now st acts w :
  now (foldl (perform st) w acts) = now w.
Proof. revert w. induction acts as [|a acts IH]; intros w; [done|]. simpl. by rewrite IH. Qed.

Lemma perform_fold_output st acts w :
  output (foldl (perform st) w acts) = output w ++ acts.
Proof.
  revert w. induction acts as [|a acts IH]; intros w; simpl.
  - by rewrite app_nil_r.
  - rewrite IH. simpl. by rewrite <- app_assoc.
Qed.

Lemma apply_component w r :
  component (apply w r) = (commit (localStorage w) (component w) r).1.
Proof. unfold apply. by rewrite perform_fold_component. Qed.

Lemma apply_storage w r : localStorage (apply w r) = localStorage w.
Proof. unfold apply. by rewrite perform_fold_storage. Qed.

Lemma apply_now w r : now (apply w r) = now w.
Proof. unfold apply. by rewrite perform_fold_now. Qed.

Lemma apply_output w r :
  output (apply w r)
  = output w ++ (commit (localStorage w) (component w) r).2.
Proof. unfold apply. by rewrite perform_fold_output. Qed.

End CreatePage.

(** ** Search resolutions *)

Section SearchResolution.
Import CreatePrescription.

(** C1, counterexample.  Two rows; "Para" is typed in row 0, then the focus
    moves to the still empty row 1.  The answer to row 0's request arrives
    while [activeSearchIndex] is 1: it replaces the suggestion list, and the
    dropdown opens under row 1. *)
Lemma stale_medicine_response_is_applied :
  ∃ w p w',
    run freshForm
      [ClickAddMedicine; InputFocus 0;
       MedicineInputChange 0 name_field "Para"; InputBlur 0; InputFocus 1]
    = Some w
    ∧ inflight w !! 0 = Some p
    ∧ request p = GetMedicinesSearch "Para" (Some "secret")
    ∧ issuer p = Some 0
    ∧ activeSearchIndex (component w) = Some 1
    ∧ medicineSuggestions (component w) = []
    ∧ step w (Settle 0 (Fulfilled (MedicinesData [paracetamol]))) = Some w'
    ∧ medicineSuggestions (component w') = [paracetamol]
    ∧ medicineSuggestions (component w') ≠ medicineSuggestions (component w)
    ∧ medicineDropdownOpen (component w') 1 = true.
Proof.
  eexists _, _, _.
  repeat (split; [vm_compute; reflexivity|]).
  split; [vm_compute; discriminate|vm_compute; reflexivity].
Qed.

Lemma settle_medicine_search w n p q tok o r :
  inflight w !! n = Some p →
  request p = GetMedicinesSearch q tok →
  searchMedicines_settled o (component w) = Some r →
  medicineSearch r.1 = medicineSearch (component w) →
  activeSearchIndex r.1 = activeSearchIndex (component w) →
  ∃ w', step w (Settle n o) = Some w' ∧ component w' = r.1.
Proof.
  intros Hp Hr Hs Hq Ha. unfold step. rewrite Hp. simpl.
  unfold settled. rewrite Hr, Hs. simpl.
  eexists. split; [reflexivity|].
  rewrite apply_component. simpl. by rewrite commit_same.
Qed.

(** C1, as amended.  The continuation of a medicine search applies its
    answer without looking at [activeSearchIndex]: a fulfilled request
    replaces the suggestion list by the response, a rejected one leaves it
    as it is, and neither touches [activeSearchIndex].  Only the rendering
    is keyed by the row: the list is shown under row [index] only while
    [activeSearchIndex] is [index]. *)
Theorem medicine_response_applied_without_guard w n p q tok :
  inflight w !! n = Some p →
  request p = GetMedicinesSearch q tok →
  (∀ data, ∃ w',
      step w (Settle n (Fulfilled (MedicinesData data))) = Some w'
      ∧ medicineSuggestions (component w') = data
      ∧ activeSearchIndex (component w') = activeSearchIndex (component w))
  ∧ (∀ e, ∃ w',
      step w (Settle n (Rejected e)) = Some w'
      ∧ medicineSuggestions (component w') = medicineSuggestions (component w)
      ∧ activeSearchIndex (component w') = activeSearchIndex (component w))
  ∧ (∀ o w' index,
      step w (Settle n o) = Some w' →
      medicineDropdownOpen (component w') index = true →
      activeSearchIndex (component w) = Some index).
Proof.
  intros Hp Hr. split; [|split].
  - intros data.
    destruct (settle_medicine_search w n p q tok
                (Fulfilled (MedicinesData data))
                (setMedicineSuggestions data (component w), []))
      as (w' & Hstep & Hc); try done.
    exists w'. by rewrite Hc.
  - intros e.
    destruct (settle_medicine_search w n p q tok (Rejected e)
                (component w, [ConsoleError "Failed to search medicines"]))
      as (w' & Hstep & Hc); try done.
    exists w'. by rewrite Hc.
  - intros o w' index Hstep Hopen.
    unfold step in Hstep. rewrite Hp in Hstep. simpl in Hstep.
    unfold settled in Hstep. rewrite Hr in Hstep.
    destruct (searchMedicines_settled o (component w)) as [r|] eqn:Hs;
      [|done].
    simpl in Hstep. injection Hstep as <-.
    unfold medicineDropdownOpen in Hopen.
    apply andb_prop in Hopen as [Ha _]. apply bool_decide_eq_true_1 in Ha.
    rewrite apply_component in Ha. simpl in Ha.
    destruct (commit_frame (localStorage w) (component w) r)
      as (_ & _ & Hact & _).
    rewrite Hact in Ha. rewrite <- Ha.
    destruct o as [[]|]; simpl in Hs; by simplify_eq.
Qed.

(** The row that asked has lost the focus and its teardown has run; the
    answer is applied all the same. *)
Lemma medicine_response_applied_without_guard_witness :
  activeSearchIndex
    (component (afterTrace [InputFocus 0;
                            MedicineInputChange 0 name_field "Para";
                            InputBlur 0; Elapse 200])) = None
  ∧ ∃ w',
      step (afterTrace [InputFocus 0; MedicineInputChange 0 name_field "Para";
                        InputBlur 0; Elapse 200])
        (Settle 0 (Fulfilled (MedicinesData [paracetamol]))) = Some w'
      ∧ medicineSuggestions (component w') = [paracetamol]
      ∧ activeSearchIndex (component w')
        = activeSearchIndex
            (component (afterTrace [InputFocus 0;
                                    MedicineInputChange 0 name_field "Para";
                                    InputBlur 0; Elapse 200])).
Proof.
  split; [vm_compute; reflexivity|].
  apply (proj1 (medicine_response_applied_without_guard
                  (afterTrace [InputFocus 0;
                               MedicineInputChange 0 name_field "Para";
                               InputBlur 0; Elapse 200])
                  0 {| request := GetMedicinesSearch "Para" (Some "secret");
                       issuer := Some 0 |}
                  "Para" (Some "secret")
                  ltac:(vm_compute; reflexivity) eq_refl)).
Defined.

End SearchResolution.

(** ** Failed searches *)

Section SearchFailure.
Import CreatePrescription.

(** C7, counterexample.  "Pa" finds Paracetamol; the request for "Par"
    fails.  The list found for "Pa" stays in the state and stays on screen. *)
Lemma failed_search_keeps_old_suggestions :
  ∃ w w',
    run freshForm
      [InputFocus 0; MedicineInputChange 0 name_field "Pa";
       Settle 0 (Fulfilled (MedicinesData [paracetamol]));
       MedicineInputChange 0 name_field "Par"]
    = Some w
    ∧ (request <$> inflight w) = [GetMedicinesSearch "Par" (Some "secret")]
    ∧ step w (Settle 0 (Rejected offline)) = Some w'
    ∧ medicineSuggestions (component w') = [paracetamol]
    ∧ medicineSuggestions (component w') ≠ []
    ∧ medicineDropdownOpen (component w') 0 = true.
Proof.
  eexists _, _.
  repeat (split; [vm_compute; reflexivity|]).
  split; [vm_compute; discriminate|vm_compute; reflexivity].
Qed.

(** C7, as amended.  A search request of any of the three kinds that is
    rejected, whatever the error, is swallowed: the continuation writes one
    line to the console and nothing else.  No toast, no navigation, no timer,
    and the component state, suggestion lists included, is exactly what it
    was; the lists are not emptied. *)
Theorem failed_search_is_swallowed w n p e :
  inflight w !! n = Some p →
  isSearch (request p) = true →
  ∃ w' msg,
    step w (Settle n (Rejected e)) = Some w'
    ∧ component w' = component w
    ∧ output w' = output w ++ [ConsoleError msg]
    ∧ timers w' = timers w
    ∧ inflight w' = delete n (inflight w)
    ∧ localStorage w' = localStorage w.
Proof.
  intros Hp Hs. unfold step. rewrite Hp. simpl.
  destruct (request p); simpl in *; try discriminate;
    (eexists _, _; split; [reflexivity|];
     unfold apply; rewrite commit_same by done; simpl; done).
Qed.

Lemma failed_search_is_swallowed_witness :
  ∃ w' msg,
    step (afterTrace [PatientNameChange "As"]) (Settle 0 (Rejected unauthorized))
    = Some w'
    ∧ component w' = component (afterTrace [PatientNameChange "As"])
    ∧ output w' = output (afterTrace [PatientNameChange "As"]) ++ [ConsoleError msg]
    ∧ timers w' = timers (afterTrace [PatientNameChange "As"])
    ∧ inflight w' = delete 0 (inflight (afterTrace [PatientNameChange "As"]))
    ∧ localStorage w' = localStorage (afterTrace [PatientNameChange "As"]).
Proof.
  apply (failed_search_is_swallowed (afterTrace [PatientNameChange "As"]) 0
           {| request := GetPatientsSearch "As" (Some "secret");
              issuer := None |} unauthorized);
    vm_compute; reflexivity.
Defined.

End SearchFailure.

(** ** Removing a row *)

Section RowRemoval.

Lemma filter_indexed_all {A} (p : A → nat → bool) (l : list A) k :
  (∀ x i, k ≤ i → p x i = true) →
  CreatePrescription.filter_indexed p k l = l.
Proof.
  revert k. induction l as [|x l IH]; intros k Hp; simpl; [done|].
  rewrite Hp by lia. f_equal. apply IH. intros y i Hi. apply Hp. lia.
Qed.

Lemma filter_indexed_delete {A} (l : list A) k index :
  CreatePrescription.filter_indexed (λ _ i, negb (i =? k + index)) k l
  = delete index l.
Proof.
  revert k index. induction l as [|x l IH]; intros k index; simpl; [done|].
  destruct index as [|index]; simpl.
  - replace (k + 0) with k by lia. rewrite Nat.eqb_refl. simpl.
    apply filter_indexed_all. intros _ i Hi.
    apply negb_true_iff, Nat.eqb_neq. lia.
  - replace (k =? k + S index) with false
      by (symmetry; apply Nat.eqb_neq; lia).
    simpl. f_equal. replace (k + S index) with (S k + index) by lia.
    apply IH.
Qed.

(** C6, counterexample.  Row 0 of two rows owns the open suggestion list;
    its Remove button is clicked (the input loses the focus first).  After
    the removal [activeSearchIndex] is still 0 and the list is still there:
    it is now shown under the row that used to be row 1. *)
Lemma removing_the_owner_keeps_ownership :
  ∃ w w',
    CreatePrescription.run freshForm
      [CreatePrescription.ClickAddMedicine;
       CreatePrescription.InputFocus 0;
       CreatePrescription.MedicineInputChange 0
         CreatePrescription.name_field "Para";
       CreatePrescription.Settle 0
         (CreatePrescription.Fulfilled
            (CreatePrescription.MedicinesData [paracetamol]));
       CreatePrescription.InputBlur 0]
    = Some w
    ∧ CreatePrescription.activeSearchIndex (CreatePrescription.component w)
      = Some 0
    ∧ CreatePrescription.step w (CreatePrescription.ClickRemoveMedicine 0)
      = Some w'
    ∧ CreatePrescription.medicines (CreatePrescription.component w')
      = [CreatePrescription.emptyLine]
    ∧ CreatePrescription.activeSearchIndex (CreatePrescription.component w')
      = Some 0
    ∧ CreatePrescription.medicineSuggestions (CreatePrescription.component w')
      = [paracetamol]
    ∧ CreatePrescription.medicineDropdownOpen
        (CreatePrescription.component w') 0 = true.
Proof.
  eexists _, _.
  repeat (split; [vm_compute; reflexivity|]). vm_compute; reflexivity.
Qed.

(** C6, as amended.  In both page variants [removeMedicine], on a list of
    more than one row, deletes the row at [index] and writes nothing else:
    [activeSearchIndex], the suggestion list and the search text are kept
    whichever row is removed, also when it is the owner, and no effect runs.
    Ownership is positional: the row under the kept index is the same row
    when the removed row came after it, and the row that followed it
    otherwise. *)
Theorem removeMedicine_keeps_activeSearchIndex index :
  (∀ ls st,
      1 < length (CreatePrescription.medicines st) →
      let r := CreatePrescription.removeMedicine index st in
      CreatePrescription.medicines r.1
      = delete index (CreatePrescription.medicines st)
      ∧ CreatePrescription.activeSearchIndex r.1
        = CreatePrescription.activeSearchIndex st
      ∧ CreatePrescription.medicineSuggestions r.1
        = CreatePrescription.medicineSuggestions st
      ∧ CreatePrescription.medicineSearch r.1
        = CreatePrescription.medicineSearch st
      ∧ CreatePrescription.commit ls st r = r
      ∧ r.2 = []
      ∧ ∀ a, CreatePrescription.activeSearchIndex st = Some a →
          (a < index →
           CreatePrescription.medicines r.1 !! a
           = CreatePrescription.medicines st !! a)
          ∧ (index ≤ a →
             CreatePrescription.medicines r.1 !! a
             = CreatePrescription.medicines st !! S a))
  ∧ (∀ ls st,
      1 < length (CreatePrescriptionNameOnly.medicines st) →
      let r := CreatePrescriptionNameOnly.removeMedicine index st in
      CreatePrescriptionNameOnly.medicines r.1
      = delete index (CreatePrescriptionNameOnly.medicines st)
      ∧ CreatePrescriptionNameOnly.activeSearchIndex r.1
        = CreatePrescriptionNameOnly.activeSearchIndex st
      ∧ CreatePrescriptionNameOnly.medicineSuggestions r.1
        = CreatePrescriptionNameOnly.medicineSuggestions st
      ∧ CreatePrescriptionNameOnly.medicineSearch r.1
        = CreatePrescriptionNameOnly.medicineSearch st
      ∧ CreatePrescriptionNameOnly.commit ls st r = r
      ∧ r.2 = []
      ∧ ∀ a, CreatePrescriptionNameOnly.activeSearchIndex st = Some a →
          (a < index →
           CreatePrescriptionNameOnly.medicines r.1 !! a
           = CreatePrescriptionNameOnly.medicines st !! a)
          ∧ (index ≤ a →
             CreatePrescriptionNameOnly.medicines r.1 !! a
             = CreatePrescriptionNameOnly.medicines st !! S a)).
Proof.
  split; intros ls st Hlen r; subst r.
  - unfold CreatePrescription.removeMedicine.
    apply Nat.ltb_lt in Hlen as ->. simpl.
    rewrite (filter_indexed_delete _ 0 index).
    repeat split; try done.
    + by apply commit_same.
    + intros. by apply list_lookup_delete_lt.
    + intros. by apply list_lookup_delete_ge.
  - unfold CreatePrescriptionNameOnly.removeMedicine.
    apply Nat.ltb_lt in Hlen as ->. simpl.
    rewrite (filter_indexed_delete _ 0 index).
    repeat split; try done.
    + unfold CreatePrescriptionNameOnly.commit,
        CreatePrescriptionNameOnly.depsChanged. simpl.
      rewrite String.eqb_refl. by rewrite bool_decide_eq_true_2.
    + intros. by apply list_lookup_delete_lt.
    + intros. by apply list_lookup_delete_ge.
Qed.

(** Three rows, the middle one owns the list, the first one is removed: the
    index is kept and now points at what was the third row. *)
Lemma removeMedicine_keeps_activeSearchIndex_witness :
  let row n := {| CreatePrescription.name := n;
                  CreatePrescription.dosage := Js.Str "";
                  CreatePrescription.frequency := Js.Str "" |} in
  let st :=
    CreatePrescription.setActiveSearchIndex (Some 1)
      (CreatePrescription.setMedicines [row "A"; row "B"; row "C"]
         (CreatePrescription.initialState "2024-05-01")) in
  CreatePrescription.activeSearchIndex
    (CreatePrescription.removeMedicine 0 st).1 = Some 1
  ∧ CreatePrescription.medicines st !! 1 = Some (row "B")
  ∧ CreatePrescription.medicines (CreatePrescription.removeMedicine 0 st).1 !! 1
    = Some (row "C").
Proof.
  intros row st.
  destruct (proj1 (removeMedicine_keeps_activeSearchIndex 0) session st)
    as (Hm & Ha & _); [vm_compute; lia|].
  split; [exact Ha|]. split; [reflexivity|]. by rewrite Hm.
Defined.

End RowRemoval.

(** ** Selecting a suggestion *)

Section Selection.

(** C2, counterexample.  In the name-only variant the user has typed a
    dosage and a frequency and then picks a catalog entry: the name is
    replaced, the dosage and the frequency are what they were. *)
Lemma name_only_selection_overwrites_name_only :
  let typed :=
    {| CreatePrescriptionNameOnly.name := "Para";
       CreatePrescriptionNameOnly.dosage := "650mg";
       CreatePrescriptionNameOnly.frequency := "Once daily" |} in
  let entry :=
    {| CreatePrescriptionNameOnly.med_id := 1;
       CreatePrescriptionNameOnly.med_name := "Paracetamol";
       CreatePrescriptionNameOnly.common_dosages := ["500mg"] |} in
  let st :=
    CreatePrescriptionNameOnly.setMedicineSuggestions [entry]
      (CreatePrescriptionNameOnly.setActiveSearchIndex (Some 0)
         (CreatePrescriptionNameOnly.setMedicineSearch "Para"
            (CreatePrescriptionNameOnly.setMedicines [typed]
               (CreatePrescriptionNameOnly.initialState "2024-05-01")))) in
  ∃ st',
    CreatePrescriptionNameOnly.selectMedicine 0 entry st = Some (st', [])
    ∧ CreatePrescriptionNameOnly.medicines st'
      = [{| CreatePrescriptionNameOnly.name := "Paracetamol";
            CreatePrescriptionNameOnly.dosage := "650mg";
            CreatePrescriptionNameOnly.frequency := "Once daily" |}].
Proof. eexists. split; reflexivity. Qed.

(** C2, as amended.  In the variant with the combined search, selecting a
    suggestion on a row that exists overwrites the three fields of that row
    from the entry ([name], [dosage || ''], [frequency]), leaves the other
    rows alone, and clears the suggestion list, [activeSearchIndex] and the
    search text; the render that follows keeps all of that.  In the name-only
    variant the selection overwrites the name alone and keeps the row's
    dosage and frequency; the list, [activeSearchIndex] and the search text
    are cleared in the same way. *)
Theorem selectMedicine_overwrites_row index :
  (∀ ls medicine st row,
      CreatePrescription.medicines st !! index = Some row →
      ∃ st',
        CreatePrescription.selectMedicine index medicine st = Some (st', [])
        ∧ CreatePrescription.commit ls st (st', []) = (st', [])
        ∧ CreatePrescription.medicines st'
          = <[index :=
                {| CreatePrescription.name :=
                     CreatePrescription.med_name medicine;
                   CreatePrescription.dosage :=
                     Js.or_else (CreatePrescription.med_dosage medicine)
                       (Js.Str "");
                   CreatePrescription.frequency :=
                     CreatePrescription.med_frequency medicine |}]>
              (CreatePrescription.medicines st)
        ∧ CreatePrescription.medicineSuggestions st' = []
        ∧ CreatePrescription.activeSearchIndex st' = None
        ∧ CreatePrescription.medicineSearch st' = "")
  ∧ (∀ ls medicine st row,
      CreatePrescriptionNameOnly.medicines st !! index = Some row →
      ∃ st',
        CreatePrescriptionNameOnly.selectMedicine index medicine st
        = Some (st', [])
        ∧ CreatePrescriptionNameOnly.commit ls st (st', []) = (st', [])
        ∧ CreatePrescriptionNameOnly.medicines st'
          = <[index :=
                {| CreatePrescriptionNameOnly.name :=
                     CreatePrescriptionNameOnly.med_name medicine;
                   CreatePrescriptionNameOnly.dosage :=
                     CreatePrescriptionNameOnly.dosage row;
                   CreatePrescriptionNameOnly.frequency :=
                     CreatePrescriptionNameOnly.frequency row |}]>
              (CreatePrescriptionNameOnly.medicines st)
        ∧ CreatePrescriptionNameOnly.medicineSuggestions st' = []
        ∧ CreatePrescriptionNameOnly.activeSearchIndex st' = None
        ∧ CreatePrescriptionNameOnly.medicineSearch st' = "").
Proof.
  split; intros ls medicine st row Hrow.
  - unfold CreatePrescription.selectMedicine. rewrite Hrow. simpl.
    eexists. split; [reflexivity|]. split; [|done].
    unfold CreatePrescription.commit, CreatePrescription.medicineSearchEffect.
    simpl. by destruct (CreatePrescription.depsChanged _ _).
  - unfold CreatePrescriptionNameOnly.selectMedicine. rewrite Hrow. simpl.
    eexists. split; [reflexivity|]. split; [|done].
    unfold CreatePrescriptionNameOnly.commit,
      CreatePrescriptionNameOnly.medicineSearchEffect.
    simpl. by destruct (CreatePrescriptionNameOnly.depsChanged _ _).
Qed.

Lemma selectMedicine_overwrites_row_witness :
  ∃ st',
    CreatePrescription.selectMedicine 0 paracetamol
      (CreatePrescription.initialState "2024-05-01") = Some (st', [])
    ∧ CreatePrescription.commit session
        (CreatePrescription.initialState "2024-05-01") (st', []) = (st', [])
    ∧ CreatePrescription.medicines st'
      = [{| CreatePrescription.name := "Paracetamol";
            CreatePrescription.dosage := Js.Str "500mg";
            CreatePrescription.frequency := Js.Str "Twice daily" |}]
    ∧ CreatePrescription.medicineSuggestions st' = []
    ∧ CreatePrescription.activeSearchIndex st' = None
    ∧ CreatePrescription.medicineSearch st' = "".
Proof.
  exact (proj1 (selectMedicine_overwrites_row 0) session paracetamol
           (CreatePrescription.initialState "2024-05-01")
           CreatePrescription.emptyLine eq_refl).
Defined.

End Selection.

(** ** Submitting the form *)

Section Submission.

Lemma truthy_string_false s : Js.truthy_string s = false ↔ s = "".
Proof.
  unfold Js.truthy_string. rewrite negb_false_iff. apply String.eqb_eq.
Qed.

Lemma truthy_Str_false s : Js.truthy (Js.Str s) = false ↔ s = "".
Proof. apply truthy_string_false. Qed.

(** C3, counterexample.  In the name-only variant a form whose only row has
    a name and a frequency but no dosage is rejected locally, with the
    patient name filled in. *)
Lemma name_only_submit_requires_dosage :
  let st :=
    {| CreatePrescriptionNameOnly.formData :=
         {| CreatePrescriptionNameOnly.patient_name := "Asha Rao";
            CreatePrescriptionNameOnly.patient_age := "";
            CreatePrescriptionNameOnly.date := "2024-05-01";
            CreatePrescriptionNameOnly.doctor_notes := "" |};
       CreatePrescriptionNameOnly.medicines :=
         [{| CreatePrescriptionNameOnly.name := "Paracetamol";
             CreatePrescriptionNameOnly.dosage := "";
             CreatePrescriptionNameOnly.frequency := "Twice daily" |}];
       CreatePrescriptionNameOnly.medicineSearch := "";
       CreatePrescriptionNameOnly.medicineSuggestions := [];
       CreatePrescriptionNameOnly.activeSearchIndex := None;
       CreatePrescriptionNameOnly.loading := false |} in
  CreatePrescriptionNameOnly.handleSubmit session st
  = (st, [CreatePrescriptionNameOnly.ToastError
            (Js.Str "Please fill all required fields")]).
Proof. reflexivity. Qed.

(** C3, as amended.  In the variant with the combined search a submit
    attempt is rejected locally (one error toast, state unchanged, nothing
    sent) exactly when the patient name is empty or some row has an empty
    name or an empty (falsy) frequency; otherwise exactly one POST is issued
    and [loading] is set, so an empty dosage does not block.  In the
    name-only variant the rejection happens exactly when the patient name is
    empty or some row has an empty name, dosage or frequency: there an empty
    dosage blocks too. *)
Theorem handleSubmit_rejects_exactly ls :
  (∀ st,
      let incomplete :=
        CreatePrescription.patient_name (CreatePrescription.formData st) = ""
        ∨ ∃ m, m ∈ CreatePrescription.medicines st
               ∧ (CreatePrescription.name m = ""
                  ∨ Js.truthy (CreatePrescription.frequency m) = false) in
      (incomplete ↔
       CreatePrescription.handleSubmit ls st
       = (st, [CreatePrescription.ToastError
                 (Js.Str "Please fill all required fields")]))
      ∧ (¬ incomplete ↔
         CreatePrescription.handleSubmit ls st
         = (CreatePrescription.setLoading true st,
            [CreatePrescription.AxiosRequest
               (CreatePrescription.PostPrescriptions
                  (CreatePrescription.prescriptionData st)
                  (getItem "token" ls))])))
  ∧ (∀ st,
      let incomplete :=
        CreatePrescriptionNameOnly.patient_name
          (CreatePrescriptionNameOnly.formData st) = ""
        ∨ ∃ m, m ∈ CreatePrescriptionNameOnly.medicines st
               ∧ (CreatePrescriptionNameOnly.name m = ""
                  ∨ CreatePrescriptionNameOnly.dosage m = ""
                  ∨ CreatePrescriptionNameOnly.frequency m = "") in
      (incomplete ↔
       CreatePrescriptionNameOnly.handleSubmit ls st
       = (st, [CreatePrescriptionNameOnly.ToastError
                 (Js.Str "Please fill all required fields")]))
      ∧ (¬ incomplete ↔
         CreatePrescriptionNameOnly.handleSubmit ls st
         = (CreatePrescriptionNameOnly.setLoading true st,
            [CreatePrescriptionNameOnly.AxiosRequest
               (CreatePrescriptionNameOnly.PostPrescriptions
                  (CreatePrescriptionNameOnly.prescriptionData st)
                  (getItem "token" ls))]))).
Proof.
  split; intros st incomplete.
  - assert (Hdec :
      negb (Js.truthy_string
              (CreatePrescription.patient_name (CreatePrescription.formData st)))
      || existsb (λ m, negb (Js.truthy_string (CreatePrescription.name m))
                       || negb (Js.truthy (CreatePrescription.frequency m)))
           (CreatePrescription.medicines st) = true ↔ incomplete).
    { subst incomplete. rewrite orb_true_iff, negb_true_iff,
        truthy_string_false, existsb_exists.
      apply or_iff_compat_l. split.
      - intros (m & Hin & Hm). exists m. split; [by apply list_elem_of_In|].
        rewrite orb_true_iff, !negb_true_iff, truthy_string_false in Hm.
        done.
      - intros (m & Hin & Hm). exists m. split; [by apply list_elem_of_In|].
        by rewrite orb_true_iff, !negb_true_iff, truthy_string_false. }
    unfold CreatePrescription.handleSubmit.
    destruct (_ || _) eqn:Hb.
    + split; split; try done.
      * intros _. by apply Hdec.
      * intros Hn. destruct Hn. by apply Hdec.
    + assert (¬ incomplete) by (rewrite <- Hdec; congruence).
      split; split; try done.
  - assert (Hdec :
      negb (Js.truthy_string
              (CreatePrescriptionNameOnly.patient_name
                 (CreatePrescriptionNameOnly.formData st)))
      || existsb
           (λ m, negb (Js.truthy_string (CreatePrescriptionNameOnly.name m))
                 || negb (Js.truthy_string (CreatePrescriptionNameOnly.dosage m))
                 || negb (Js.truthy_string
                            (CreatePrescriptionNameOnly.frequency m)))
           (CreatePrescriptionNameOnly.medicines st) = true ↔ incomplete).
    { subst incomplete. rewrite orb_true_iff, negb_true_iff,
        truthy_string_false, existsb_exists.
      apply or_iff_compat_l. split.
      - intros (m & Hin & Hm). exists m. split; [by apply list_elem_of_In|].
        rewrite !orb_true_iff, !negb_true_iff, !truthy_string_false in Hm.
        tauto.
      - intros (m & Hin & Hm). exists m. split; [by apply list_elem_of_In|].
        rewrite !orb_true_iff, !negb_true_iff, !truthy_string_false. tauto. }
    unfold CreatePrescriptionNameOnly.handleSubmit.
    destruct (_ || _) eqn:Hb.
    + split; split; try done.
      * intros _. by apply Hdec.
      * intros Hn. destruct Hn. by apply Hdec.
    + assert (¬ incomplete) by (rewrite <- Hdec; congruence).
      split; split; try done.
Qed.

(** The spec's scenario for the first variant: no patient name and one empty
    row. *)
Lemma handleSubmit_rejects_exactly_witness :
  CreatePrescription.handleSubmit session
    (CreatePrescription.initialState "2024-05-01")
  = (CreatePrescription.initialState "2024-05-01",
     [CreatePrescription.ToastError (Js.Str "Please fill all required fields")]).
Proof.
  apply (proj1 (handleSubmit_rejects_exactly session)). by left.
Defined.

(** C10.  Whenever [handleSubmit] issues the POST, in either page variant,
    the [patient_age] of the body is [null] for an empty age text and the
    number [parseInt] reads from it otherwise; it is never a string. *)
Theorem posted_patient_age_is_parsed ls :
  (∀ st body token,
      CreatePrescription.AxiosRequest
        (CreatePrescription.PostPrescriptions body token)
      ∈ (CreatePrescription.handleSubmit ls st).2 →
      let age :=
        CreatePrescription.patient_age (CreatePrescription.formData st) in
      (age = "" → CreatePrescription.body_patient_age body = Js.Null)
      ∧ (age ≠ "" →
         CreatePrescription.body_patient_age body = Js.Num (Js.parseInt age))
      ∧ ∀ s, CreatePrescription.body_patient_age body ≠ Js.Str s)
  ∧ (∀ st body token,
      CreatePrescriptionNameOnly.AxiosRequest
        (CreatePrescriptionNameOnly.PostPrescriptions body token)
      ∈ (CreatePrescriptionNameOnly.handleSubmit ls st).2 →
      let age :=
        CreatePrescriptionNameOnly.patient_age
          (CreatePrescriptionNameOnly.formData st) in
      (age = "" → CreatePrescriptionNameOnly.body_patient_age body = Js.Null)
      ∧ (age ≠ "" →
         CreatePrescriptionNameOnly.body_patient_age body
         = Js.Num (Js.parseInt age))
      ∧ ∀ s, CreatePrescriptionNameOnly.body_patient_age body ≠ Js.Str s).
Proof.
  split; intros st body token Hin age.
  - unfold CreatePrescription.handleSubmit in Hin.
    destruct (_ || _); simpl in Hin;
      apply list_elem_of_singleton in Hin; [discriminate|].
    injection Hin as -> _. subst age. simpl.
    destruct (Js.truthy_string _) eqn:Ht.
    + repeat split; try done. intros He.
      apply truthy_string_false in He. congruence.
    + apply truthy_string_false in Ht. by rewrite Ht.
  - unfold CreatePrescriptionNameOnly.handleSubmit in Hin.
    destruct (_ || _); simpl in Hin;
      apply list_elem_of_singleton in Hin; [discriminate|].
    injection Hin as -> _. subst age. simpl.
    destruct (Js.truthy_string _) eqn:Ht.
    + repeat split; try done. intros He.
      apply truthy_string_false in He. congruence.
    + apply truthy_string_false in Ht. by rewrite Ht.
Qed.

Lemma posted_patient_age_is_parsed_witness :
  let st :=
    CreatePrescription.setMedicines
      [{| CreatePrescription.name := "Paracetamol";
          CreatePrescription.dosage := Js.Str "";
          CreatePrescription.frequency := Js.Str "Twice daily" |}]
      (CreatePrescription.setFormData
         {| CreatePrescription.patient_name := "Asha Rao";
            CreatePrescription.patient_age := "42";
            CreatePrescription.date := "2024-05-01";
            CreatePrescription.diagnosis := "";
            CreatePrescription.investigations := "";
            CreatePrescription.doctor_notes := "" |}
         (CreatePrescription.initialState "2024-05-01")) in
  CreatePrescription.body_patient_age (CreatePrescription.prescriptionData st)
  = Js.Num (Js.Int 42).
Proof.
  intros st.
  apply (proj1 (posted_patient_age_is_parsed session) st
           (CreatePrescription.prescriptionData st) (Some "secret"));
    [vm_compute; apply list_elem_of_here | discriminate].
Defined.

End Submission.

(** ** Empty queries *)

Section EmptyQuery.
Import CreatePrescription.












Lemma run_reachable ls today es : ∀ w w',
  reachable ls today w → run w es = Some w' → reachable ls today w'.
Proof.
  induction es as [|e es IH]; intros w w' Hw Hrun; simpl in Hrun.
  - by injection Hrun as <-.
  - destruct (step w e) as [w1|] eqn:Hstep; simpl in Hrun; [|done].
    eapply IH; [|done]. by eapply reachable_step.
Qed.



End EmptyQuery.

(** ** Blur and the deferred teardown *)

Section Blur.
Import CreatePrescription.

Lemma fire_component w cb :
  component (fire w cb)
  = (commit (localStorage w) (component w)
       (runTimerCallback cb (component w), [])).1.
Proof. unfold fire. by rewrite apply_component. Qed.

Lemma fire_medicines w cb : medicines (component (fire w cb)) = medicines (component w).
Proof.
  rewrite fire_component.
  destruct (commit_frame (localStorage w) (component w)
              (runTimerCallback cb (component w), [])) as (-> & _).
  by destruct cb.
Qed.

Lemma idle_of st :
  activeSearchIndex st = None → medicineSuggestions st = [] → medicineIdle st.
Proof.
  intros Ha Hs. repeat split; try done.
  intros index. unfold medicineDropdownOpen. by rewrite Ha.
Qed.

(** The teardown callback leaves the typeahead idle whatever it finds. *)
Lemma fire_teardown_idle w :
  medicineIdle (component (fire w TeardownMedicineSuggestions)).
Proof.
  rewrite fire_component.
  destruct (commit_frame (localStorage w) (component w)
              (runTimerCallback TeardownMedicineSuggestions (component w), []))
    as (_ & _ & Ha & _ & _ & _ & Hs).
  apply idle_of; [done|]. by destruct Hs as [-> | ->].
Qed.




(** The timer set last is the last one to run. *)
Lemma elapse_last w0 cb ts delay :
  timers w0 = ts ++ [{| due := now w0 + delay; callback := cb |}] →
  ∃ w', elapse delay w0 = fire w' cb.
Proof.
  intros Ht. unfold elapse. cbv zeta.
  rewrite Ht, !filter_app, fmap_app, foldl_app.
  rewrite (filter_singleton_True (λ tm, due tm ≤ now w0 + delay) _ [])
    by (simpl; lia).
  simpl. by eexists.
Qed.

Lemma blur_sets_timer w e cb :
  handle (localStorage w) e (component w)
  = Some (component w, [SetTimeout cb 200]) →
  ∃ w1,
    step w e = Some w1
    ∧ component w1 = component w
    ∧ localStorage w1 = localStorage w
    ∧ now w1 = now w
    ∧ timers w1 = timers w ++ [{| due := now w + 200; callback := cb |}].
Proof.
  intros Hh.
  assert (step w e = Some (apply w (component w, [SetTimeout cb 200])))
    as Hstep.
  { unfold step.
    destruct e; try (simpl in Hh; discriminate Hh); by rewrite Hh. }
  eexists. split; [exact Hstep|].
  unfold apply. rewrite commit_same by done. done.
Qed.








End Blur.

(** ** The session gate *)

Section Gate.
Import Pages.

(** Unauthenticated, every protected view ends on the login view. *)
Lemma gate_redirects_to_login st l :
  App.isAuthenticated st = false →
  l = App.RootPath ∨ l = App.CreatePath ∨ (∃ id, l = App.PrescriptionPath id) →
  App.settle 2 st l = Some (App.LoginPath, App.LoginView).
Proof.
  intros Hst [-> | [-> | [id ->]]]; simpl; rewrite Hst; simpl;
    by rewrite Hst.
Qed.

(** Authenticated, the login view ends on the default view. *)
Lemma gate_redirects_from_login st :
  App.isAuthenticated st = true →
  App.settle 2 st App.LoginPath = Some (App.RootPath, App.DashboardView).
Proof. intros Hst. simpl. rewrite Hst. simpl. by rewrite Hst. Qed.

(** Two routing steps always reach a view. *)
Lemma settle_total st l : is_Some (App.settle 2 st l).
Proof.
  destruct l; simpl; destruct (App.isAuthenticated st) eqn:Ha; simpl;
    rewrite ?Ha; simpl; eauto.
Qed.

(** At load the gate is the presence of a non-empty token. *)
Lemma gate_at_load ls :
  App.isAuthenticated (App.mountEffect ls App.initialState) = true
  ↔ ∃ token, ls !! "token" = Some token ∧ token ≠ "".
Proof.
  unfold App.mountEffect, getItem. simpl. split.
  - destruct (ls !! "token") as [token|]; [|done].
    intros Ht. exists token. split; [done|].
    unfold Js.truthy_string in Ht. apply negb_true_iff in Ht.
    by apply String.eqb_neq.
  - intros (token & -> & Hne). unfold Js.truthy_string.
    apply negb_true_iff. by apply String.eqb_neq.
Qed.

Lemma navigate_gate to w :
  Site.app (Site.navigate to w) = Site.app w
  ∧ Site.localStorage (Site.navigate to w) = Site.localStorage w.
Proof. done. Qed.

(** While the gate state says authenticated, no address shows the login
    view. *)
Lemma authenticated_never_login w to :
  App.isAuthenticated (Site.app w) = true →
  Site.view (Site.navigate to w) ≠ Some App.LoginView.
Proof.
  intros Ha. unfold Site.view, Site.navigate. simpl.
  destruct (App.loading (Site.app w)); [done|].
  destruct (App.matchPath to); simpl; rewrite ?Ha; simpl; rewrite ?Ha;
    simpl; rewrite ?Ha; done.
Qed.

(** C4, counterexample.  The token in storage is one the backend rejects.
    The dashboard's list request fails with 401: a toast, and nothing else.
    The token is still stored, the dashboard is still shown, the create page
    can still be opened, and the login address still redirects away. *)
Lemma auth_error_keeps_session :
  let w := Site.load expiredSession "/" in
  let r := Site.dashboardFetchSettled (Rejected unauthorized)
             Dashboard.initialState w in
  Site.view w = Some App.DashboardView
  ∧ r.2 = [ToastError "Failed to fetch prescriptions"]
  ∧ Site.localStorage r.1 !! "token" = Some "expired"
  ∧ Site.view r.1 = Some App.DashboardView
  ∧ Site.view (Site.navigate "/create" r.1) = Some App.CreatePrescriptionView
  ∧ Site.view (Site.navigate "/login" r.1) = Some App.DashboardView.
Proof. repeat split; vm_compute; reflexivity. Qed.

(** C4, as amended.  A failed authenticated request, whatever the error
    (401 included: the kind is not inspected), never touches the stored token
    or the gate and never leads to the login view.  On the dashboard the
    failed list request only raises the toast "Failed to fetch
    prescriptions"; the page stays where it is.  On the prescription page the
    failed record request raises "Failed to fetch prescription" and
    navigates to "/".  With the gate still authenticated, "/" is the
    dashboard and no later navigation shows the login view. *)
Theorem failed_request_keeps_token_and_gate e w :
  (∀ st,
      let r := Site.dashboardFetchSettled (Rejected e) st w in
      r.1 = w ∧ r.2 = [ToastError "Failed to fetch prescriptions"])
  ∧ (∀ st,
      let r := Site.viewFetchSettled (Rejected e) st w in
      r.2 = [ToastError "Failed to fetch prescription"; Navigate "/"]
      ∧ r.1 = Site.navigate "/" w
      ∧ Site.localStorage r.1 = Site.localStorage w
      ∧ Site.app r.1 = Site.app w
      ∧ (App.isAuthenticated (Site.app w) = true →
         App.loading (Site.app w) = false →
         Site.view r.1 = Some App.DashboardView
         ∧ ∀ to, Site.view (Site.navigate to r.1) ≠ Some App.LoginView))
  ∧ (App.isAuthenticated (Site.app w) = true →
     ∀ to, Site.view (Site.navigate to w) ≠ Some App.LoginView).
Proof.
  split; [|split].
  - intros st. by destruct w.
  - intros st. simpl.
    assert (Site.withStorage (Site.localStorage w) w = w) as Hw
      by by destruct w.
    unfold Site.viewFetchSettled. simpl. rewrite Hw.
    repeat split.
    + unfold Site.view, Site.navigate. simpl. rewrite H0, !H. simpl.
      by rewrite H.
    + intros to. by apply authenticated_never_login.
  - intros Ha to. by apply authenticated_never_login.
Qed.

Lemma failed_request_keeps_token_and_gate_witness :
  Site.view
    (Site.viewFetchSettled (Rejected unauthorized)
       ViewPrescription.initialState
       (Site.load expiredSession "/prescription/7")).1
  = Some App.DashboardView.
Proof.
  exact (proj1 (proj2 (proj2 (proj2 (proj2
           (proj1 (proj2 (failed_request_keeps_token_and_gate unauthorized
                            (Site.load expiredSession "/prescription/7")))
              ViewPrescription.initialState))))
           eq_refl eq_refl)).
Defined.

(** [handleLogout] in the browser: storage is cleared, the gate state is the
    one before, and the address settles on "/". *)
Lemma logout_world w0 :
  App.isAuthenticated (Site.app w0) = true →
  Site.app (Site.logout w0) = Site.app w0
  ∧ Site.location (Site.logout w0) = App.RootPath
  ∧ Site.localStorage (Site.logout w0) !! "token" = None
  ∧ Site.localStorage (Site.logout w0) !! "doctorName" = None.
Proof.
  destruct w0 as [a ls l]. simpl. intros Ha.
  unfold Site.logout, Dashboard.handleLogout, Site.navigate, removeItem.
  simpl. rewrite Ha. simpl. rewrite Ha. repeat split.
  - rewrite lookup_delete_ne by done. apply lookup_delete_eq.
  - apply lookup_delete_eq.
Qed.

(** C5, the code at the failing input.  A session with a non-empty token is
    loaded and the Logout button is clicked.  [handleLogout] removes the
    token and navigates to "/login", but the gate state of [App] is not
    told: [isAuthenticated] is still true, the login route redirects back to
    "/", the dashboard is shown again, and no address shows the login view.
    Only a reload, which runs the mount effect again, shows it. *)
Theorem logout_leaves_gate_authenticated ls path token :
  ls !! "token" = Some token →
  token ≠ "" →
  let w := Site.logout (Site.load ls path) in
  Site.localStorage w !! "token" = None
  ∧ App.isAuthenticated (Site.app w) = true
  ∧ Site.location w = App.RootPath
  ∧ Site.view w = Some App.DashboardView
  ∧ (∀ to, Site.view (Site.navigate to w) ≠ Some App.LoginView)
  ∧ Site.view (Site.load (Site.localStorage w) "/login")
    = Some App.LoginView.
Proof.
  intros Htok Hne w.
  assert (App.isAuthenticated (Site.app (Site.load ls path)) = true)
    as Hauth by (apply gate_at_load; eauto).
  destruct (logout_world _ Hauth) as (Happ & Hloc & Hgone & _).
  fold w in Happ, Hloc, Hgone.
  assert (App.isAuthenticated (Site.app w) = true) as Hgate
    by (by rewrite Happ).
  assert (App.loading (Site.app w) = false) as Hload by (by rewrite Happ).
  clearbody w.
  repeat (split; [done|]). split; [|split].
  - unfold Site.view. rewrite Hload, Hloc. simpl. by rewrite Hgate.
  - intros to. by apply authenticated_never_login.
  - unfold Site.load, Site.view, Site.navigate, App.mountEffect, getItem.
    simpl. by rewrite Hgone.
Qed.

Lemma logout_leaves_gate_authenticated_witness :
  Site.view (Site.logout (Site.load session "/")) = Some App.DashboardView
  ∧ Site.localStorage (Site.logout (Site.load session "/")) !! "token" = None.
Proof.
  destruct (logout_leaves_gate_authenticated session "/" "secret")
    as (Hgone & _ & _ & Hview & _); [vm_compute; reflexivity|discriminate|].
  split; [exact Hview|exact Hgone].
Defined.

End Gate.

(** * Further properties of the pages *)

(** ** Invariants of the create page *)

(** Case analysis on a guarded handler call that returned a result. *)
Ltac handler_cases Hh :=
  repeat match type of Hh with
         | (if ?b then _ else _) = Some _ => destruct b eqn:?
         | (?o ≫= _) = Some _ => destruct o eqn:?; simpl in Hh
         end; try discriminate Hh; try (injection Hh as <-).

Section CreatePageInvariants.
Import CreatePrescription.

Lemma fires_storage cbs w : localStorage (foldl fire w cbs) = localStorage w.
Proof.
  revert w. induction cbs as [|cb cbs IH]; intros w; simpl; [done|].
  rewrite IH. unfold fire. apply apply_storage.
Qed.

Lemma step_storage w e w' : step w e = Some w' → localStorage w' = localStorage w.
Proof.
  unfold step. intros Hstep.
  destruct e;
    try match type of Hstep with
        | context [handle ?l ?e ?c] =>
            destruct (handle l e c) as [r|] eqn:Hh;
            [|by change (None = Some w') in Hstep];
            change (Some (apply w r) = Some w') in Hstep;
            injection Hstep as <-; apply apply_storage
        end.
  - destruct (inflight w !! n) as [p|]; simpl in Hstep; [|done].
    destruct (settled (request p) o (component w)) as [r|];
      simpl in Hstep; [|done].
    injection Hstep as <-. by rewrite apply_storage.
  - injection Hstep as <-. unfold elapse. by rewrite fires_storage.
Qed.

(** A property of the component state that the handlers, the continuations,
    the timer callbacks and the effect keep holds in every reachable world;
    and the page never writes the storage. *)
Lemma component_invariant ls today (P : State → Prop) :
  P (initialState today) →
  (∀ st l, P st → P (setMedicineSuggestions l st)) →
  (∀ e st r, handle ls e st = Some r → P st → P r.1) →
  (∀ req o st r, settled req o st = Some r → P st → P r.1) →
  (∀ cb st, P st → P (runTimerCallback cb st)) →
  ∀ w, reachable ls today w → localStorage w = ls ∧ P (component w).
Proof.
  intros Hinit Hsugg Hhandle Hsettled Htimer.
  assert (Heffect : ∀ st, P st → P (medicineSearchEffect ls st).1).
  { intros st Hst. unfold medicineSearchEffect.
    destruct (_ && _); simpl; auto. }
  assert (Hcommit : ∀ prev r, P r.1 → P (commit ls prev r).1).
  { intros prev r Hr. unfold commit. destruct (depsChanged prev r.1); [|done].
    specialize (Heffect _ Hr).
    by destruct (medicineSearchEffect ls r.1). }
  assert (Hfires : ∀ cbs w, localStorage w = ls → P (component w) →
                            P (component (foldl fire w cbs))).
  { induction cbs as [|cb cbs IH]; intros w Hls Hw; simpl; [done|].
    apply IH.
    - unfold fire. by rewrite apply_storage.
    - rewrite fire_component, Hls. apply Hcommit. simpl. by apply Htimer. }
  intros w Hw. induction Hw as [|w e w' _ [Hls IH] Hstep].
  - split.
    + unfold initialWorld. by rewrite perform_fold_storage.
    + unfold initialWorld. rewrite perform_fold_component. simpl.
      by apply Hsugg.
  - split; [by rewrite (step_storage _ _ _ Hstep)|].
    unfold step in Hstep.
    destruct e;
      try match type of Hstep with
          | context [handle ?l ?e ?c] =>
              destruct (handle l e c) as [r|] eqn:Hh;
              [|by change (None = Some w') in Hstep];
              change (Some (apply w r) = Some w') in Hstep;
              injection Hstep as <-; rewrite apply_component, Hls;
              apply Hcommit; rewrite Hls in Hh; by eapply Hhandle
          end.
    + destruct (inflight w !! n) as [p|]; simpl in Hstep; [|done].
      destruct (settled (request p) o (component w)) as [r|] eqn:Hs;
        simpl in Hstep; [|done].
      injection Hstep as <-. rewrite apply_component. simpl. rewrite Hls.
      apply Hcommit. by eapply Hsettled.
    + injection Hstep as <-. unfold elapse. by apply Hfires.
Qed.

Lemma delete_out_of_range {A} (l : list A) i :
  length l ≤ i → delete i l = l.
Proof.
  revert i. induction l as [|x l IH]; intros [|i] Hi; simpl in *;
    [done|done|lia|].
  f_equal. apply IH. lia.
Qed.

Lemma length_delete_floor {A} (l : list A) i :
  1 < length l → 0 < length (delete i l).
Proof.
  intros Hl. destruct (decide (i < length l)) as [Hi|Hi].
  - rewrite length_delete by (by apply lookup_lt_is_Some_2). lia.
  - rewrite delete_out_of_range by lia. lia.
Qed.

(** X1.  The medicine list of the create page is never empty: in every
    world the page can reach there is at least one row.  Rows are only
    removed by [removeMedicine], which does nothing when one row is left. *)
Theorem medicine_list_never_empty ls today w :
  reachable ls today w → 0 < length (medicines (component w)).
Proof.
  intros Hw.
  apply (component_invariant ls today
           (λ st, 0 < length (medicines st))); try done.
  - simpl. lia.
  - intros e st r Hh Hst.
    destruct e; simpl in Hh; try done;
      try (injection Hh as <-; exact Hst).
    + unfold handlePatientNameChange in Hh. injection Hh as <-.
      by destruct (Js.truthy_string value).
    + unfold patientNameFocus in Hh. injection Hh as <-.
      by destruct (Js.truthy_string _).
    + handler_cases Hh. exact Hst.
    + unfold handleInvestigationChange in Hh. injection Hh as <-.
      by destruct (Js.truthy_string value).
    + unfold investigationsFocus in Hh. injection Hh as <-.
      by destruct (Js.truthy_string _).
    + handler_cases Hh. exact Hst.
    + unfold handleMedicineInputChange in Hh. handler_cases Hh. simpl.
      by rewrite length_insert.
    + unfold handleInputFocus in Hh. handler_cases Hh.
      by destruct (Js.truthy_string _).
    + handler_cases Hh. exact Hst.
    + handler_cases Hh. unfold selectMedicine in Hh. handler_cases Hh. simpl.
      by rewrite length_insert.
    + injection Hh as <-. simpl. rewrite length_app. simpl. lia.
    + handler_cases Hh. unfold removeMedicine.
      destruct (1 <? length (medicines st)) eqn:Hl; [|done]. simpl.
      rewrite (filter_indexed_delete _ 0 index).
      apply length_delete_floor. by apply Nat.ltb_lt.
    + handler_cases Hh. unfold handleSubmit. by destruct (_ || _).
  - intros req o st r Hs Hst.
    destruct req, o as [[]|]; simpl in Hs; by simplify_eq.
  - intros cb st Hst. by destruct cb.
Qed.

Lemma medicine_list_never_empty_witness :
  0 < length (medicines
                (component (afterTrace [ClickAddMedicine; ClickRemoveMedicine 0;
                                        ClickAddMedicine; ClickRemoveMedicine 1]))).
Proof.
  apply (medicine_list_never_empty session "2024-05-01").
  apply (run_reachable session "2024-05-01"
           [ClickAddMedicine; ClickRemoveMedicine 0;
            ClickAddMedicine; ClickRemoveMedicine 1] freshForm);
    [apply reachable_initial | vm_compute; reflexivity].
Defined.

End CreatePageInvariants.

(** ** The search text *)

Section SearchText.
Import CreatePrescription.


Lemma trimStart_head c r :
  Js.isWhiteSpace c = false → Js.trimStart (String c r) = String c r.
Proof. intros Hc. simpl. by rewrite Hc. Qed.












End SearchText.

(** ** One submission at a time *)

Section SingleSubmission.
Import CreatePrescription.

Lemma postActions_app a b : postActions (a ++ b) = postActions a + postActions b.
Proof. unfold postActions. by rewrite filter_app, length_app. Qed.

Lemma effect_posts ls st :
  loading (medicineSearchEffect ls st).1 = loading st
  ∧ postActions (medicineSearchEffect ls st).2 = 0.
Proof. unfold medicineSearchEffect. by destruct (_ && _). Qed.

Lemma commit_posts ls prev r :
  loading (commit ls prev r).1 = loading r.1
  ∧ postActions (commit ls prev r).2 = postActions r.2.
Proof.
  unfold commit. destruct (depsChanged prev r.1); [|done].
  destruct (effect_posts ls r.1) as [Hl Hp].
  destruct (medicineSearchEffect ls r.1) as [st' acts]. simpl in *.
  split; [done|]. rewrite postActions_app, Hp. lia.
Qed.

Lemma perform_fold_posts st acts w :
  postsInFlight (foldl (perform st) w acts) = postsInFlight w + postActions acts.
Proof.
  revert w. induction acts as [|a acts IH]; intros w; simpl.
  - unfold postActions. simpl. lia.
  - rewrite IH. unfold postsInFlight, postActions. simpl.
    destruct a as [r| | | |]; simpl;
      rewrite ?filter_app, ?length_app, ?filter_cons; simpl;
      try (rewrite filter_cons; simpl); try lia.
    destruct r; simpl; repeat case_decide; simpl; try done; lia.
Qed.

Lemma apply_posts w r :
  postsInFlight (apply w r) = postsInFlight w + postActions r.2
  ∧ loading (component (apply w r)) = loading r.1.
Proof.
  destruct (commit_posts (localStorage w) (component w) r) as [Hl Hp].
  split.
  - unfold apply. by rewrite perform_fold_posts, Hp.
  - by rewrite apply_component.
Qed.

Lemma handle_posts ls e st r :
  handle ls e st = Some r →
  (if loading r.1 then 1 else 0)
  = (if loading st then 1 else 0) + postActions r.2.
Proof.
  intros Hh.
  destruct e; simpl in Hh; try done;
    try (injection Hh as <-; simpl; unfold postActions; simpl; lia).
  - unfold handlePatientNameChange in Hh. injection Hh as <-.
    destruct (Js.truthy_string value); simpl; unfold postActions; simpl; lia.
  - unfold patientNameFocus in Hh. injection Hh as <-.
    destruct (Js.truthy_string _); simpl; unfold postActions; simpl; lia.
  - handler_cases Hh. simpl. unfold postActions. simpl. lia.
  - unfold handleInvestigationChange in Hh. injection Hh as <-.
    destruct (Js.truthy_string value); simpl; unfold postActions; simpl; lia.
  - unfold investigationsFocus in Hh. injection Hh as <-.
    destruct (Js.truthy_string _); simpl; unfold postActions; simpl; lia.
  - handler_cases Hh. simpl. unfold postActions. simpl. lia.
  - unfold handleMedicineInputChange in Hh. handler_cases Hh. simpl.
    unfold postActions. simpl. lia.
  - unfold handleInputFocus in Hh. handler_cases Hh.
    destruct (Js.truthy_string _); simpl; unfold postActions; simpl; lia.
  - handler_cases Hh. simpl. unfold postActions. simpl. lia.
  - handler_cases Hh. unfold selectMedicine in Hh. handler_cases Hh. simpl.
    unfold postActions. simpl. lia.
  - handler_cases Hh. unfold removeMedicine.
    destruct (1 <? length (medicines st)); simpl; unfold postActions;
      simpl; lia.
  - destruct (loading st) eqn:Hl; [done|]. injection Hh as <-.
    unfold handleSubmit. destruct (_ || _); simpl; rewrite ?Hl;
      unfold postActions; simpl; lia.
Qed.

Lemma settled_posts req o st r :
  settled req o st = Some r →
  postActions r.2 = 0
  ∧ loading r.1 = (if isPost req then false else loading st).
Proof.
  destruct req, o as [[]|]; simpl; intros [= <-]; done.
Qed.

Lemma filter_delete_length {A} (P : A → Prop) `{!∀ x, Decision (P x)}
  (l : list A) n p :
  l !! n = Some p →
  length (filter P l)
  = length (filter P (delete n l)) + (if decide (P p) then 1 else 0).
Proof.
  revert n. induction l as [|x l IH]; intros [|n] Hn; simpl in *; try done.
  - injection Hn as ->. rewrite filter_cons.
    destruct (decide (P p)); simpl; lia.
  - rewrite !filter_cons.
    destruct (decide (P x)); simpl; rewrite (IH n Hn); lia.
Qed.

Lemma fires_posts cbs w :
  postsInFlight (foldl fire w cbs) = postsInFlight w
  ∧ loading (component (foldl fire w cbs)) = loading (component w).
Proof.
  revert w. induction cbs as [|cb cbs IH]; intros w; simpl; [done|].
  destruct (IH (fire w cb)) as [-> ->]. unfold fire.
  destruct (apply_posts w (runTimerCallback cb (component w), []))
    as [-> ->].
  simpl. split; [unfold postActions; simpl; lia|]. by destruct cb.
Qed.

(** X3.  At most one submission is in flight, and [loading] says when: in
    every reachable world the number of pending POST requests is one if
    [loading] is set and zero otherwise, and while one is pending the form
    cannot be submitted again. *)
Theorem at_most_one_submission_in_flight ls today w :
  reachable ls today w →
  postsInFlight w = (if loading (component w) then 1 else 0)
  ∧ postsInFlight w ≤ 1
  ∧ (postsInFlight w = 1 → step w SubmitForm = None).
Proof.
  intros Hw.
  assert (postsInFlight w = (if loading (component w) then 1 else 0)) as Hinv.
  { induction Hw as [|w e w' _ IH Hstep]; [done|].
    unfold step in Hstep.
    destruct e;
      try match type of Hstep with
          | context [handle ?l ?e ?c] =>
              destruct (handle l e c) as [r|] eqn:Hh;
              [|by change (None = Some w') in Hstep];
              change (Some (apply w r) = Some w') in Hstep;
              injection Hstep as <-;
              destruct (apply_posts w r) as [-> ->];
              rewrite (handle_posts _ _ _ _ Hh), IH; reflexivity
          end.
    - destruct (inflight w !! n) as [p|] eqn:Hp; simpl in Hstep; [|done].
      destruct (settled (request p) o (component w)) as [r|] eqn:Hs;
        simpl in Hstep; [|done].
      injection Hstep as <-.
      destruct (settled_posts _ _ _ _ Hs) as [Hr Hl].
      match goal with
      | |- context [apply ?w0 r] => destruct (apply_posts w0 r) as [-> ->]
      end.
      rewrite Hr, Hl. unfold postsInFlight in *. simpl.
      rewrite (filter_delete_length _ _ _ _ Hp) in IH.
      destruct (isPost (request p)) eqn:Hpost.
      + rewrite decide_True in IH by done.
        destruct (loading (component w)); lia.
      + rewrite decide_False in IH by congruence. lia.
    - injection Hstep as <-. unfold elapse.
      match goal with
      | |- context [foldl fire ?w0 ?cbs] =>
          destruct (fires_posts cbs w0) as [-> ->]
      end.
      exact IH. }
  split; [done|]. split.
  - rewrite Hinv. destruct (loading (component w)); lia.
  - intros Hone. rewrite Hinv in Hone. unfold step. simpl.
    by destruct (loading (component w)).
Qed.

(** A complete form is submitted; while the POST is pending a second submit
    is not possible. *)
Lemma at_most_one_submission_in_flight_witness :
  postsInFlight
    (afterTrace [PatientNameChange "Asha Rao";
                 MedicineInputChange 0 name_field "Paracetamol";
                 MedicineInputChange 0 frequency_field "Twice daily";
                 SubmitForm]) = 1
  ∧ step (afterTrace [PatientNameChange "Asha Rao";
                      MedicineInputChange 0 name_field "Paracetamol";
                      MedicineInputChange 0 frequency_field "Twice daily";
                      SubmitForm]) SubmitForm = None.
Proof.
  destruct (at_most_one_submission_in_flight session "2024-05-01"
              (afterTrace [PatientNameChange "Asha Rao";
                           MedicineInputChange 0 name_field "Paracetamol";
                           MedicineInputChange 0 frequency_field "Twice daily";
                           SubmitForm])) as (_ & _ & Hno).
  { apply (run_reachable session "2024-05-01"
             [PatientNameChange "Asha Rao";
              MedicineInputChange 0 name_field "Paracetamol";
              MedicineInputChange 0 frequency_field "Twice daily";
              SubmitForm] freshForm);
      [apply reachable_initial | vm_compute; reflexivity]. }
  split; [vm_compute; reflexivity|]. apply Hno. vm_compute. reflexivity.
Defined.

End SingleSubmission.

(** ** The session token on the create page *)

Section TokenOnRequests.
Import CreatePrescription.

Lemma request_carries ls r :
  tokenOf r = getItem "token" ls → Forall (carriesToken ls) [AxiosRequest r].
Proof.
  intros Ht. constructor; [|constructor]. by intros r' [= <-].
Qed.

Lemma quiet_carries ls a : (∀ r, a ≠ AxiosRequest r) → carriesToken ls a.
Proof. intros Hn r Hr. by destruct (Hn r). Qed.

Lemma effect_carries ls st : Forall (carriesToken ls) (medicineSearchEffect ls st).2.
Proof.
  unfold medicineSearchEffect. destruct (_ && _); simpl; [|constructor].
  by apply request_carries.
Qed.

Lemma handle_carries ls e st r :
  handle ls e st = Some r → Forall (carriesToken ls) r.2.
Proof.
  destruct e; simpl; intros Hh;
    repeat match type of Hh with
           | (if ?b then _ else _) = Some _ => destruct b eqn:?
           end; try discriminate; try (injection Hh as <-; simpl).
  - unfold handlePatientNameChange.
    destruct (Js.truthy_string value); simpl; [|constructor].
    by apply request_carries.
  - unfold patientNameFocus.
    destruct (Js.truthy_string _); simpl; [|constructor].
    by apply request_carries.
  - repeat constructor. by apply quiet_carries.
  - constructor.
  - constructor.
  - constructor.
  - constructor.
  - unfold handleInvestigationChange.
    destruct (Js.truthy_string value); simpl; [|constructor].
    by apply request_carries.
  - unfold investigationsFocus.
    destruct (Js.truthy_string _); simpl; [|constructor].
    by apply request_carries.
  - repeat constructor. by apply quiet_carries.
  - constructor.
  - constructor.
  - unfold handleMedicineInputChange in Hh. handler_cases Hh. constructor.
  - unfold handleInputFocus in Hh. handler_cases Hh. constructor.
  - repeat constructor. by apply quiet_carries.
  - unfold selectMedicine in Hh. handler_cases Hh. constructor.
  - constructor.
  - unfold removeMedicine. destruct (1 <? _); constructor.
  - unfold handleSubmit. destruct (_ || _); simpl.
    + repeat constructor. by apply quiet_carries.
    + by apply request_carries.
Qed.

Lemma settled_carries ls req o st r :
  settled req o st = Some r → Forall (carriesToken ls) r.2.
Proof.
  destruct req, o as [[]|]; simpl; intros [= <-]; simpl;
    repeat constructor; by apply quiet_carries.
Qed.

Lemma commit_carries ls prev r :
  Forall (carriesToken ls) r.2 → Forall (carriesToken ls) (commit ls prev r).2.
Proof.
  intros Hr. unfold commit. destruct (depsChanged prev r.1); [|done].
  pose proof (effect_carries ls r.1) as He.
  destruct (medicineSearchEffect ls r.1) as [st' acts]. simpl in *.
  by apply Forall_app.
Qed.

Lemma fires_carry ls cbs w :
  localStorage w = ls →
  Forall (carriesToken ls) (output w) →
  Forall (carriesToken ls) (output (foldl fire w cbs)).
Proof.
  revert w. induction cbs as [|cb cbs IH]; intros w Hls Hw; simpl; [done|].
  apply IH.
  - unfold fire. by rewrite apply_storage.
  - unfold fire. rewrite apply_output, Hls. apply Forall_app. split; [done|].
    apply commit_carries. constructor.
Qed.

(** X4.  The create page never writes [localStorage], and every request it
    issues (the three searches and the submission) carries the token that is
    stored under "token" (none when the key is missing). *)
Theorem requests_carry_stored_token ls today w :
  reachable ls today w →
  localStorage w = ls ∧ Forall (carriesToken ls) (output w).
Proof.
  intros Hw. induction Hw as [|w e w' Hw [Hls IH] Hstep].
  - split.
    + unfold initialWorld. by rewrite perform_fold_storage.
    + unfold initialWorld. rewrite perform_fold_output. simpl. constructor.
  - split; [by rewrite (step_storage _ _ _ Hstep)|].
    unfold step in Hstep.
    destruct e;
      try match type of Hstep with
          | context [handle ?l ?e ?c] =>
              destruct (handle l e c) as [r|] eqn:Hh;
              [|by change (None = Some w') in Hstep];
              change (Some (apply w r) = Some w') in Hstep;
              injection Hstep as <-; rewrite apply_output, Hls;
              apply Forall_app; split; [done|];
              apply commit_carries; rewrite Hls in Hh;
              by eapply handle_carries
          end.
    + destruct (inflight w !! n) as [p|]; simpl in Hstep; [|done].
      destruct (settled (request p) o (component w)) as [r|] eqn:Hs;
        simpl in Hstep; [|done].
      injection Hstep as <-. rewrite apply_output. simpl. rewrite Hls.
      apply Forall_app. split; [done|].
      apply commit_carries. by eapply settled_carries.
    + injection Hstep as <-. unfold elapse. by apply fires_carry.
Qed.

Lemma requests_carry_stored_token_witness :
  localStorage (afterTrace [PatientNameChange "As"; InputFocus 0;
                            MedicineInputChange 0 name_field "Para"])
  = session
  ∧ Forall (carriesToken session)
      (output (afterTrace [PatientNameChange "As"; InputFocus 0;
                           MedicineInputChange 0 name_field "Para"])).
Proof.
  apply (requests_carry_stored_token session "2024-05-01").
  apply (run_reachable session "2024-05-01"
           [PatientNameChange "As"; InputFocus 0;
            MedicineInputChange 0 name_field "Para"] freshForm);
    [apply reachable_initial | vm_compute; reflexivity].
Defined.

End TokenOnRequests.

(** ** Submission and its outcome *)

Section SubmissionOutcome.
Import CreatePrescription.





End SubmissionOutcome.

(** ** Focus *)

Section Focus.
Import CreatePrescription.

(** X6.  [handleInputFocus] sets the search text only when the focused row
    has some text.  Focusing a row in which nothing is entered therefore
    keeps the search text of whatever row was searched last: if that text is
    not empty and the row was not already the active one, the effect sends
    one medicine search for the old text on behalf of the newly focused
    row. *)
Theorem focus_on_blank_row_searches_previous_text w index row :
  medicines (component w) !! index = Some row →
  blankRow row →
  medicineSearch (component w) ≠ "" →
  activeSearchIndex (component w) ≠ Some index →
  let search :=
    GetMedicinesSearch (medicineSearch (component w))
      (getItem "token" (localStorage w)) in
  ∃ w',
    step w (InputFocus index) = Some w'
    ∧ activeSearchIndex (component w') = Some index
    ∧ medicineSearch (component w') = medicineSearch (component w)
    ∧ medicines (component w') = medicines (component w)
    ∧ output w' = output w ++ [AxiosRequest search]
    ∧ inflight w'
      = inflight w ++ [{| request := search; issuer := Some index |}].
Proof.
  intros Hrow Hblank Hq Ha search.
  unfold step. simpl. unfold handleInputFocus. rewrite Hrow. simpl.
  unfold blankRow in Hblank. rewrite Hblank. simpl.
  eexists. split; [reflexivity|].
  unfold apply, commit, depsChanged. simpl.
  rewrite String.eqb_refl. simpl.
  rewrite bool_decide_eq_false_2 by done. simpl.
  unfold medicineSearchEffect. simpl.
  assert (Js.truthy_string (medicineSearch (component w)) = true) as ->.
  { unfold Js.truthy_string. apply negb_true_iff. by apply String.eqb_neq. }
  simpl. done.
Qed.

(** "Para" is typed in row 0 and answered, the suggestion is left alone, a
    second row is added and focused: "Para" is searched again for row 1. *)
Lemma focus_on_blank_row_searches_previous_text_witness :
  ∃ w',
    step (afterTrace [ClickAddMedicine; InputFocus 0;
                      MedicineInputChange 0 name_field "Para";
                      Settle 0 (Fulfilled (MedicinesData []))])
      (InputFocus 1) = Some w'
    ∧ activeSearchIndex (component w') = Some 1
    ∧ (request <$> inflight w') = [GetMedicinesSearch "Para" (Some "secret")].
Proof.
  destruct (focus_on_blank_row_searches_previous_text
              (afterTrace [ClickAddMedicine; InputFocus 0;
                           MedicineInputChange 0 name_field "Para";
                           Settle 0 (Fulfilled (MedicinesData []))])
              1 emptyLine)
    as (w' & Hstep & Ha & _ & _ & _ & Hin);
    [vm_compute; reflexivity | vm_compute; reflexivity
    | vm_compute; discriminate | vm_compute; discriminate |].
  exists w'. split; [exact Hstep|]. split; [exact Ha|].
  rewrite Hin. vm_compute. reflexivity.
Defined.

Lemma apply_quiet_timers w st :
  timers (apply w (st, [])) = timers w ∧ now (apply w (st, [])) = now w.
Proof.
  unfold apply, commit. simpl. destruct (depsChanged (component w) st); [|done].
  unfold medicineSearchEffect. by destruct (_ && _).
Qed.

(** X7.  The teardown that a blur schedules is not cancelled by a later
    focus.  When a medicine input loses the focus and another medicine input
    (of the same or of another row) gains it, the newly focused row owns the
    suggestion list at first, but 200 ms after the blur the pending teardown
    clears [activeSearchIndex] and the suggestion list all the same. *)
Theorem teardown_outlives_refocus w index index' :
  index < length (medicines (component w)) →
  index' < length (medicines (component w)) →
  ∃ w1 w2,
    step w (InputBlur index) = Some w1
    ∧ step w1 (InputFocus index') = Some w2
    ∧ activeSearchIndex (component w2) = Some index'
    ∧ medicineIdle (component (elapse 200 w2)).
Proof.
  intros Hi Hi'.
  destruct (blur_sets_timer w (InputBlur index) TeardownMedicineSuggestions)
    as (w1 & Hstep & Hc & Hls & Hn & Ht).
  { simpl. by apply Nat.ltb_lt in Hi as ->. }
  destruct (lookup_lt_is_Some_2 _ _ Hi') as [row Hrow].
  exists w1.
  assert (∃ st, handleInputFocus index' (component w1) = Some (st, [])
                ∧ activeSearchIndex st = Some index') as (st & Hf & Hst).
  { unfold handleInputFocus. rewrite Hc, Hrow. simpl. eexists.
    split; [reflexivity|]. by destruct (Js.truthy_string _). }
  exists (apply w1 (st, [])). split; [done|]. split.
  { unfold step. simpl. by rewrite Hf. }
  split.
  { rewrite apply_component.
    by destruct (commit_frame (localStorage w1) (component w1) (st, []))
      as (_ & _ & -> & _). }
  destruct (apply_quiet_timers w1 st) as [Ht2 Hn2].
  destruct (elapse_last (apply w1 (st, [])) TeardownMedicineSuggestions
              (timers w) 200) as [w' ->].
  { by rewrite Ht2, Hn2, Hn. }
  apply fire_teardown_idle.
Qed.

(** Tabbing from the name input of row 0 to its dosage input while
    suggestions are shown. *)
Lemma teardown_outlives_refocus_witness :
  ∃ w1 w2,
    step (afterTrace [InputFocus 0; MedicineInputChange 0 name_field "Para";
                      Settle 0 (Fulfilled (MedicinesData [paracetamol]))])
      (InputBlur 0) = Some w1
    ∧ step w1 (InputFocus 0) = Some w2
    ∧ activeSearchIndex (component w2) = Some 0
    ∧ medicineIdle (component (elapse 200 w2)).
Proof.
  apply (teardown_outlives_refocus
           (afterTrace [InputFocus 0; MedicineInputChange 0 name_field "Para";
                        Settle 0 (Fulfilled (MedicinesData [paracetamol]))])
           0 0); vm_compute; lia.
Defined.

End Focus.

(** ** Adding and removing rows *)

Section Rows.
Import CreatePrescription.

(** X8.  Row bookkeeping of [addMedicine] and [removeMedicine].  Removing
    at an index that exists, from more than one row, shortens the list by
    exactly one; removing at an index past the end, or from a list of one
    row, changes nothing; and adding a row and then removing the row just
    added gives back the list as it was (for a list that was not empty),
    with every other part of the state untouched. *)
Theorem add_then_remove_restores_rows st index :
  (1 < length (medicines st) → index < length (medicines st) →
     length (medicines (removeMedicine index st).1) = length (medicines st) - 1)
  ∧ (length (medicines st) ≤ index →
     medicines (removeMedicine index st).1 = medicines st)
  ∧ (length (medicines st) ≤ 1 → removeMedicine index st = (st, []))
  ∧ (0 < length (medicines st) →
     (removeMedicine (length (medicines st)) (addMedicine st).1).1 = st)
  ∧ medicines (addMedicine st).1 = medicines st ++ [emptyLine].
Proof.
  repeat split.
  - intros Hl Hi. unfold removeMedicine.
    apply Nat.ltb_lt in Hl as ->. simpl.
    rewrite (filter_indexed_delete _ 0 index).
    apply length_delete. by apply lookup_lt_is_Some_2.
  - intros Hi. unfold removeMedicine.
    destruct (1 <? length (medicines st)); [|done]. simpl.
    rewrite (filter_indexed_delete _ 0 index).
    by apply delete_out_of_range.
  - intros Hl. unfold removeMedicine.
    by apply Nat.ltb_ge in Hl as ->.
  - intros Hl. unfold removeMedicine, addMedicine. simpl.
    rewrite length_app. simpl.
    replace (1 <? length (medicines st) + 1) with true
      by (symmetry; apply Nat.ltb_lt; lia).
    simpl. rewrite (filter_indexed_delete _ 0 (length (medicines st))).
    rewrite (delete_middle (medicines st) []), app_nil_r. by destruct st.
Qed.

End Rows.

(** ** The name-only variant *)

Section NameOnlyEdits.
Import CreatePrescriptionNameOnly.

(** X9.  In the name-only variant only the name input drives the search.
    An edit of the dosage or the frequency of a row rewrites that field and
    nothing else: no request, no change of [activeSearchIndex], of the search
    text or of the suggestion list.  An edit of the name makes the row the
    active one and makes the typed value, as it is and untrimmed, the search
    text; when that value is not empty and differs from the previous search
    text, or the row was not the active one, exactly one search for it is
    sent, also when it consists of white space only. *)
Theorem name_only_search_follows_name_input ls st index row value :
  medicines st !! index = Some row →
  (∀ field, field ≠ name_field →
     commit ls st <$> handleMedicineInputChange index field value st
     = Some (setMedicines (<[index := set_field field value row]> (medicines st))
               st, []))
  ∧ ∃ st',
      handleMedicineInputChange index name_field value st = Some (st', [])
      ∧ medicines st'
        = <[index := {| name := value; dosage := dosage row;
                        frequency := frequency row |}]> (medicines st)
      ∧ activeSearchIndex st' = Some index
      ∧ medicineSearch st' = value
      ∧ (value ≠ "" →
         medicineSearch st ≠ value ∨ activeSearchIndex st ≠ Some index →
         commit ls st (st', [])
         = (st', [AxiosRequest (GetMedicinesSearch value (getItem "token" ls))])).
Proof.
  intros Hrow. split.
  - intros field Hf. unfold handleMedicineInputChange. rewrite Hrow. simpl.
    destruct field; [done|..]; unfold commit, depsChanged; simpl;
      by rewrite String.eqb_refl, bool_decide_eq_true_2.
  - unfold handleMedicineInputChange. rewrite Hrow. simpl.
    eexists. split; [reflexivity|]. repeat (split; [done|]).
    intros Hv Hchg. unfold commit, depsChanged. simpl.
    assert (negb (medicineSearch st =? value)%string
            || negb (bool_decide (activeSearchIndex st = Some index)) = true)
      as ->.
    { apply orb_true_iff. destruct Hchg as [Hq | Ha].
      - left. apply negb_true_iff. by apply String.eqb_neq.
      - right. apply negb_true_iff. by apply bool_decide_eq_false_2. }
    unfold medicineSearchEffect. simpl.
    assert (Js.truthy_string value = true) as ->; [|done].
    unfold Js.truthy_string. apply negb_true_iff. by apply String.eqb_neq.
Qed.

(** A single blank typed into the name of the first row is searched for. *)
Lemma name_only_search_follows_name_input_witness :
  ∃ st',
    handleMedicineInputChange 0 name_field " " (initialState "2024-05-01")
    = Some (st', [])
    ∧ commit session (initialState "2024-05-01") (st', [])
      = (st', [AxiosRequest (GetMedicinesSearch " " (Some "secret"))]).
Proof.
  destruct (proj2 (name_only_search_follows_name_input session
                     (initialState "2024-05-01") 0 emptyLine " " eq_refl))
    as (st' & Hh & _ & _ & _ & Hc).
  exists st'. split; [exact Hh|]. apply Hc; [discriminate|left; discriminate].
Defined.

End NameOnlyEdits.

(** ** Ages *)

Section Ages.

Lemma digitValue_pretty d :
  (d < 10)%N → Js.digitValue 10 (pretty_N_char d) = Some (Z.of_N d).
Proof.
  intros Hd.
  assert (d = 0 ∨ d = 1 ∨ d = 2 ∨ d = 3 ∨ d = 4 ∨ d = 5 ∨ d = 6 ∨ d = 7
          ∨ d = 8 ∨ d = 9)%N as Hcases by lia.
  repeat destruct Hcases as [-> | Hcases]; try reflexivity.
  by subst.
Qed.

Lemma pretty_go_digits x : ∀ s, digitsOnly s → digitsOnly (pretty_N_go x s).
Proof.
  induction (N.lt_wf_0 x) as [x _ IH]. intros s Hs.
  destruct (decide (x = 0)%N) as [-> | Hx]; [by rewrite pretty_N_go_0|].
  rewrite pretty_N_go_step by lia. apply IH.
  - apply N.div_lt; lia.
  - split; [|done]. exists (x `mod` 10)%N. split; [|done].
    apply N.mod_lt. lia.
Qed.

Lemma pretty_go_parse x : ∀ s,
  Js.parseDigits 10 (pretty_N_go x s) None
  = Js.parseDigits 10 s
      (if decide (x = 0)%N then None else Some (Z.of_N x)).
Proof.
  induction (N.lt_wf_0 x) as [x _ IH]. intros s.
  destruct (decide (x = 0)%N) as [-> | Hx]; [by rewrite pretty_N_go_0|].
  rewrite pretty_N_go_step by lia. rewrite IH by (apply N.div_lt; lia).
  simpl. rewrite digitValue_pretty by (apply N.mod_lt; lia).
  f_equal. f_equal.
  pose proof (N.div_mod x 10 ltac:(lia)) as Hdm.
  destruct (decide (x `div` 10 = 0)%N) as [H0 | H0]; simpl; lia.
Qed.

Lemma pretty_go_nonempty x : ∀ c s, ∃ c' r, pretty_N_go x (String c s) = String c' r.
Proof.
  induction (N.lt_wf_0 x) as [x _ IH]. intros c s.
  destruct (decide (x = 0)%N) as [-> | Hx]; [rewrite pretty_N_go_0; eauto|].
  rewrite pretty_N_go_step by lia. apply IH. apply N.div_lt; lia.
Qed.

(** [parseInt] on a non-empty string of digits reads all of it in base 10. *)
Lemma parseInt_digits c r :
  digitsOnly (String c r) →
  Js.parseInt (String c r)
  = match Js.parseDigits 10 (String c r) None with
    | Some z => Js.Int z
    | None => Js.NaN
    end.
Proof.
  intros [(d & Hd & ->) Hr].
  assert (d = 0 ∨ d = 1 ∨ d = 2 ∨ d = 3 ∨ d = 4 ∨ d = 5 ∨ d = 6 ∨ d = 7
          ∨ d = 8 ∨ d = 9)%N as Hcases by lia.
  assert (∀ z, Js.Int (1 * z) = Js.Int z) as Hone
    by (intros z; f_equal; lia).
  destruct r as [|c2 r2].
  - repeat destruct Hcases as [-> | Hcases]; subst; reflexivity.
  - destruct Hr as [(d2 & Hd2 & ->) _].
    assert (d2 = 0 ∨ d2 = 1 ∨ d2 = 2 ∨ d2 = 3 ∨ d2 = 4 ∨ d2 = 5 ∨ d2 = 6
            ∨ d2 = 7 ∨ d2 = 8 ∨ d2 = 9)%N as Hcases2 by lia.
    unfold Js.parseInt.
    repeat destruct Hcases as [-> | Hcases]; subst;
      repeat destruct Hcases2 as [-> | Hcases2]; subst; simpl;
      destruct (Js.parseDigits _ _ _); by rewrite ?Hone.
Qed.

Lemma parseInt_minus_digits c r :
  digitsOnly (String c r) →
  Js.parseInt (String "-" (String c r))
  = match Js.parseDigits 10 (String c r) None with
    | Some z => Js.Int (- z)
    | None => Js.NaN
    end.
Proof.
  intros [(d & Hd & ->) Hr].
  assert (d = 0 ∨ d = 1 ∨ d = 2 ∨ d = 3 ∨ d = 4 ∨ d = 5 ∨ d = 6 ∨ d = 7
          ∨ d = 8 ∨ d = 9)%N as Hcases by lia.
  assert (∀ z, Js.Int (-1 * z) = Js.Int (- z)) as Hone
    by (intros z; f_equal; lia).
  destruct r as [|c2 r2].
  - repeat destruct Hcases as [-> | Hcases]; subst; reflexivity.
  - destruct Hr as [(d2 & Hd2 & ->) _].
    assert (d2 = 0 ∨ d2 = 1 ∨ d2 = 2 ∨ d2 = 3 ∨ d2 = 4 ∨ d2 = 5 ∨ d2 = 6
            ∨ d2 = 7 ∨ d2 = 8 ∨ d2 = 9)%N as Hcases2 by lia.
    unfold Js.parseInt.
    repeat destruct Hcases as [-> | Hcases]; subst;
      repeat destruct Hcases2 as [-> | Hcases2]; subst; simpl;
      destruct (Js.parseDigits _ _ _); by rewrite ?Hone.
Qed.

(** Printing an integer and parsing it back. *)
Lemma parseInt_toString z : Js.parseInt (Js.toString (Js.Num (Js.Int z))) = Js.Int z.
Proof.
  assert (Hpos : ∀ p, ∃ c r,
    pretty_N_go (N.pos p) "" = String c r ∧ digitsOnly (String c r)
    ∧ Js.parseDigits 10 (String c r) None = Some (Z.pos p)).
  { intros p.
    assert (pretty_N_go (N.pos p) ""
            = pretty_N_go (N.pos p `div` 10)
                (String (pretty_N_char (N.pos p `mod` 10)) "")) as Hstep
      by (by apply pretty_N_go_step).
    destruct (pretty_go_nonempty (N.pos p `div` 10)
                (pretty_N_char (N.pos p `mod` 10)) "") as (c & r & Hcr).
    exists c, r. rewrite Hstep, Hcr. split; [done|]. split.
    - rewrite <- Hcr, <- Hstep. by apply pretty_go_digits.
    - rewrite <- Hcr, <- Hstep, pretty_go_parse.
      by destruct (decide (N.pos p = 0)%N). }
  destruct z as [|p|p]; simpl.
  - reflexivity.
  - unfold pretty, pretty_Z, pretty, pretty_positive, pretty, pretty_N.
    rewrite decide_False by done.
    destruct (Hpos p) as (c & r & -> & Hd & Hp).
    by rewrite parseInt_digits, Hp.
  - unfold pretty, pretty_Z, pretty, pretty_positive, pretty, pretty_N.
    rewrite decide_False by done.
    destruct (Hpos p) as (c & r & -> & Hd & Hp).
    change ("-" +:+ String c r) with (String "-" (String c r)).
    by rewrite parseInt_minus_digits, Hp.
Qed.

(** X10.  Picking a patient from the suggestions writes the name and the
    age into the form and touches no other field.  An integer age other
    than zero, within the range a JavaScript number holds exactly (below
    2^53 in absolute value, where [toString] prints every digit), is printed
    into the age field and, when the form is submitted, parsed back: the
    POST body carries that same number.  An age that is falsy (missing,
    [null], or the number zero) leaves the age field empty and is posted as
    [null]. *)
Theorem selected_patient_age_round_trips patient st :
  let st' := (CreatePrescription.selectPatient patient st).1 in
  let fd := CreatePrescription.formData st in
  let fd' := CreatePrescription.formData st' in
  CreatePrescription.patient_name fd' = CreatePrescription.pat_name patient
  ∧ CreatePrescription.date fd' = CreatePrescription.date fd
  ∧ CreatePrescription.diagnosis fd' = CreatePrescription.diagnosis fd
  ∧ CreatePrescription.investigations fd' = CreatePrescription.investigations fd
  ∧ CreatePrescription.doctor_notes fd' = CreatePrescription.doctor_notes fd
  ∧ CreatePrescription.medicines st' = CreatePrescription.medicines st
  ∧ CreatePrescription.patientDropdownOpen st' = false
  ∧ (∀ z, safeInteger z →
       CreatePrescription.pat_age patient = Js.Num (Js.Int z) →
       CreatePrescription.body_patient_age
         (CreatePrescription.prescriptionData st')
       = if decide (z = 0%Z) then Js.Null else Js.Num (Js.Int z))
  ∧ (Js.truthy (CreatePrescription.pat_age patient) = false →
       CreatePrescription.patient_age fd' = ""
       ∧ CreatePrescription.body_patient_age
           (CreatePrescription.prescriptionData st') = Js.Null).
Proof.
  intros st' fd fd'. subst st' fd fd'. simpl. repeat (split; [done|]). split.
  - intros z _ Hz. rewrite Hz. simpl.
    destruct (decide (z = 0%Z)) as [-> | Hne]; [done|].
    assert ((z =? 0)%Z = false) as -> by (by apply Z.eqb_neq). simpl.
    assert (Js.truthy_string (pretty z) = true) as ->.
    { unfold Js.truthy_string. apply negb_true_iff, String.eqb_neq.
      intros He. pose proof (parseInt_toString z) as Hp. simpl in Hp.
      rewrite He in Hp. discriminate Hp. }
    f_equal. apply (parseInt_toString z).
  - intros Hf. by rewrite Hf.
Qed.

Lemma selected_patient_age_round_trips_witness :
  CreatePrescription.body_patient_age
    (CreatePrescription.prescriptionData
       (CreatePrescription.selectPatient
          {| CreatePrescription.pat_id := 7;
             CreatePrescription.pat_name := "Asha Rao";
             CreatePrescription.pat_age := Js.Num (Js.Int 42) |}
          (CreatePrescription.initialState "2024-05-01")).1)
  = Js.Num (Js.Int 42).
Proof.
  exact (proj1 (proj2 (proj2 (proj2 (proj2 (proj2 (proj2 (proj2
           (selected_patient_age_round_trips
              {| CreatePrescription.pat_id := 7;
                 CreatePrescription.pat_name := "Asha Rao";
                 CreatePrescription.pat_age := Js.Num (Js.Int 42) |}
              (CreatePrescription.initialState "2024-05-01")))))))))
           42%Z (conj eq_refl eq_refl) eq_refl).
Defined.

End Ages.

(** ** Routes *)

Section Routes.

Lemma substring_all s : String.substring 0 (String.length s) s = s.
Proof. induction s as [|c r IH]; simpl; [done|]. by rewrite IH. Qed.

Lemma prefix_empty s : String.prefix "" s = true.
Proof. by destruct s. Qed.

(** [App.matchPath] on an address built as the create page builds it. *)
Lemma matchPath_prescription id :
  App.matchPath ("/prescription/" +:+ id)
  = if Js.truthy_string id && negb (App.hasSlash id)
    then App.PrescriptionPath id
    else App.OtherPath ("/prescription/" +:+ id).
Proof.
  unfold App.matchPath. simpl. change ("" +:+ id) with id.
  rewrite prefix_empty, Nat.sub_0_r. by rewrite substring_all.
Qed.

Lemma plainChar_not_slash c : plainChar c = true → Ascii.eqb c "/" = false.
Proof.
  intros Hc. destruct (Ascii.eqb_spec c "/") as [-> | _]; [|done].
  vm_compute in Hc. discriminate Hc.
Qed.

Lemma plainSegment_hasSlash id : plainSegment id = true → App.hasSlash id = false.
Proof.
  induction id as [|c r IH]; simpl; [done|].
  intros [Hc Hr]%andb_true_iff. by rewrite (plainChar_not_slash c Hc), IH.
Qed.

(** X11.  After a successful submission the create page navigates to
    "/prescription/<id>" with the identifier the backend returned.  When
    that identifier is a plain one (not empty; letters, digits, [-] and [_]
    only, so that the address carries it unchanged as one path segment),
    an authenticated gate shows the prescription view for exactly that
    identifier. *)
Theorem created_prescription_is_shown id st w :
  plainId id →
  ∃ to,
    CreatePrescription.handleSubmit_settled
      (CreatePrescription.Fulfilled (CreatePrescription.Created id)) st
    = Some (CreatePrescription.setLoading false st,
            [CreatePrescription.Navigate to])
    ∧ to = "/prescription/" +:+ id
    ∧ (App.isAuthenticated (Site.app w) = true →
       App.loading (Site.app w) = false →
       Site.view (Site.navigate to w) = Some (App.ViewPrescriptionView id)).
Proof.
  intros [Hne Hplain].
  eexists. split; [reflexivity|]. split; [reflexivity|].
  intros Ha Hl. unfold Site.view, Site.navigate. simpl App.loading.
  rewrite Hl. simpl Site.app. simpl Site.location.
  rewrite matchPath_prescription, (plainSegment_hasSlash id Hplain).
  assert (Js.truthy_string id = true) as ->.
  { unfold Js.truthy_string. by apply negb_true_iff, String.eqb_neq. }
  simpl. rewrite Ha. simpl. by rewrite Ha.
Qed.

Lemma created_prescription_is_shown_witness :
  plainSegment "rx-17" = true
  ∧ Site.view (Site.navigate "/prescription/rx-17" (Site.load session "/create"))
    = Some (App.ViewPrescriptionView "rx-17").
Proof.
  split; [reflexivity|].
  destruct (created_prescription_is_shown "rx-17"
              (CreatePrescription.initialState "2024-05-01")
              (Site.load session "/create"))
    as (to & _ & -> & Hview); [split; [discriminate | reflexivity]|].
  apply Hview; reflexivity.
Defined.



End Routes.

(** ** Deleting from a list *)

Section Deletion.

(** X13.  Deleting a prescription from the dashboard.  [confirmDelete]
    opens the dialog and remembers the identifier; [handleDelete] then sends
    one DELETE for exactly that prescription, with the stored token.
    Whatever the outcome, the dialog is closed and the remembered identifier
    is cleared, and the list on screen is not edited locally.  A fulfilled
    request raises a success toast and refetches the list once, with the
    patient filter of the render in which Delete was clicked; a rejected one
    raises "Failed to delete prescription" and sends nothing.  With nothing
    remembered, [handleDelete] addresses "/api/prescriptions/null". *)
Theorem confirmed_prescription_is_deleted ls prescriptionId st :
  let clicked := DashboardWithDelete.confirmDelete prescriptionId st in
  DashboardWithDelete.deleteDialogOpen clicked = true
  ∧ DashboardWithDelete.prescriptions clicked
    = DashboardWithDelete.prescriptions st
  ∧ DashboardWithDelete.handleDelete ls clicked
    = [DashboardWithDelete.AxiosDelete
         ("/api/prescriptions/" +:+ prescriptionId) (getItem "token" ls)]
  ∧ (∀ o cur,
       let r := DashboardWithDelete.handleDelete_settled o ls clicked cur in
       DashboardWithDelete.deleteDialogOpen r.1 = false
       ∧ DashboardWithDelete.prescriptionToDelete r.1 = None
       ∧ DashboardWithDelete.prescriptions r.1
         = DashboardWithDelete.prescriptions cur
       ∧ DashboardWithDelete.searchQuery r.1
         = DashboardWithDelete.searchQuery cur
       ∧ DashboardWithDelete.loading r.1 = DashboardWithDelete.loading cur)
  ∧ (∀ u cur,
       (DashboardWithDelete.handleDelete_settled (Pages.Fulfilled u) ls
          clicked cur).2
       = DashboardWithDelete.ToastSuccess "Prescription deleted successfully"
         :: DashboardWithDelete.fetchPrescriptions ls st)
  ∧ (∀ e cur,
       (DashboardWithDelete.handleDelete_settled (Pages.Rejected e) ls
          clicked cur).2
       = [DashboardWithDelete.ToastError "Failed to delete prescription"])
  ∧ DashboardWithDelete.handleDelete ls DashboardWithDelete.initialState
    = [DashboardWithDelete.AxiosDelete "/api/prescriptions/null"
         (getItem "token" ls)].
Proof.
  simpl. repeat split; try done;
    repeat match goal with o : Pages.Outcome _ |- _ => destruct o end; done.
Qed.

(** X14.  Deleting a medicine in the medicines manager.  After
    [confirmDelete], [handleDelete] sends one DELETE for the identifier of
    the chosen medicine and changes no state; when it settles the dialog is
    closed and the choice is cleared, the list is not edited locally, a
    fulfilled request raises a success toast and refetches the catalog once,
    and a rejected one only raises "Failed to delete medicine".  With no
    medicine chosen, [handleDelete] sends nothing at all: reading the
    identifier throws inside the [try], so the failure toast is raised and
    the dialog is closed at once. *)
Theorem confirmed_medicine_is_deleted ls medicine st :
  let clicked := MedicinesManager.confirmDelete medicine st in
  MedicinesManager.handleDelete ls clicked
  = (clicked,
     [MedicinesManager.AxiosDelete
        ("/api/medicines/" +:+ MedicinesManager.id medicine)
        (getItem "token" ls)])
  ∧ MedicinesManager.medicines clicked = MedicinesManager.medicines st
  ∧ (∀ o cur,
       let r := MedicinesManager.handleDelete_settled o ls cur in
       MedicinesManager.deleteDialogOpen r.1 = false
       ∧ MedicinesManager.medicineToDelete r.1 = None
       ∧ MedicinesManager.medicines r.1 = MedicinesManager.medicines cur
       ∧ MedicinesManager.loading r.1 = MedicinesManager.loading cur)
  ∧ (∀ u cur,
       (MedicinesManager.handleDelete_settled (Pages.Fulfilled u) ls cur).2
       = [MedicinesManager.ToastSuccess "Medicine deleted successfully";
          MedicinesManager.AxiosGet "/api/medicines" (getItem "token" ls)])
  ∧ (∀ e cur,
       (MedicinesManager.handleDelete_settled (Pages.Rejected e) ls cur).2
       = [MedicinesManager.ToastError "Failed to delete medicine"])
  ∧ (MedicinesManager.medicineToDelete st = None →
     MedicinesManager.handleDelete ls st
     = (MedicinesManager.closeDialog st,
        [MedicinesManager.ToastError "Failed to delete medicine"])
     ∧ ∀ url token,
         MedicinesManager.AxiosDelete url token
         ∉ (MedicinesManager.handleDelete ls st).2).
Proof.
  simpl. repeat split; try done;
    try (repeat match goal with o : Pages.Outcome _ |- _ => destruct o end;
         done).
  - unfold MedicinesManager.handleDelete.
    by match goal with
       | Hnone : MedicinesManager.medicineToDelete st = None |- _ =>
           rewrite Hnone
       end.
  - intros url token. unfold MedicinesManager.handleDelete.
    match goal with
    | Hnone : MedicinesManager.medicineToDelete st = None |- _ =>
        rewrite Hnone
    end.
    simpl. by intros [=]%list_elem_of_singleton.
Qed.

End Deletion.

(** ** Entries without a frequency *)

Section MissingFrequency.
Import CreatePrescription.

(** X15.  [selectMedicine] guards the dosage of the entry with [|| ''] but
    not its frequency.  Selecting an entry whose frequency is missing (or
    otherwise falsy) therefore leaves the row without a usable frequency:
    whatever else the form holds, the next submit is rejected locally.  When
    the frequency is [undefined], the search text computed for that row
    spells it out: it is the trimmed "<name> <dosage> undefined". *)
Theorem selecting_entry_without_frequency_blocks_submit ls index medicine st row :
  medicines st !! index = Some row →
  Js.truthy (med_frequency medicine) = false →
  ∃ st' row',
    selectMedicine index medicine st = Some (st', [])
    ∧ medicines st' !! index = Some row'
    ∧ frequency row' = med_frequency medicine
    ∧ handleSubmit ls st'
      = (st', [ToastError (Js.Str "Please fill all required fields")])
    ∧ (med_frequency medicine = Js.Undefined →
       searchTermOf row'
       = Js.trim (med_name medicine +:+ " "
                  +:+ Js.toString (Js.or_else (med_dosage medicine) (Js.Str ""))
                  +:+ " " +:+ "undefined")).
Proof.
  intros Hrow Hf. unfold selectMedicine. rewrite Hrow. simpl.
  eexists _, _. split; [reflexivity|]. simpl.
  split; [apply list_lookup_insert_eq; by eapply lookup_lt_Some|].
  split; [done|]. split.
  - unfold handleSubmit. simpl.
    match goal with
    | |- context [existsb ?f ?l] =>
        assert (existsb f l = true) as ->
    end.
    { apply existsb_exists. eexists. split.
      - apply list_elem_of_In, list_elem_of_lookup. exists index.
        apply list_lookup_insert_eq. by eapply lookup_lt_Some.
      - simpl. rewrite Hf. apply orb_true_r. }
    by rewrite orb_true_r.
  - intros Hu. unfold searchTermOf. simpl. by rewrite Hu.
Qed.

Lemma selecting_entry_without_frequency_blocks_submit_witness :
  ∃ st' row',
    selectMedicine 0
      {| med_id := 3; med_name := "Cetirizine"; med_dosage := Js.Str "10mg";
         med_frequency := Js.Undefined |}
      (component completedForm) = Some (st', [])
    ∧ medicines st' !! 0 = Some row'
    ∧ handleSubmit session st'
      = (st', [ToastError (Js.Str "Please fill all required fields")])
    ∧ searchTermOf row' = "Cetirizine 10mg undefined".
Proof.
  destruct (selecting_entry_without_frequency_blocks_submit session 0
              {| med_id := 3; med_name := "Cetirizine";
                 med_dosage := Js.Str "10mg"; med_frequency := Js.Undefined |}
              (component completedForm)
              {| name := "Paracetamol"; dosage := Js.Str "";
                 frequency := Js.Str "Twice daily" |})
    as (st' & row' & Hsel & Hrow & _ & Hsub & Hterm);
    [vm_compute; reflexivity | reflexivity |].
  exists st', row'. repeat (split; [assumption|]).
  rewrite (Hterm eq_refl). vm_compute. reflexivity.
Defined.

End MissingFrequency.

(** ** Requests per event *)

Section RequestsPerEvent.
Import CreatePrescription.

Lemma requestActions_app a b :
  requestActions (a ++ b) = requestActions a + requestActions b.
Proof. unfold requestActions. by rewrite filter_app, length_app. Qed.

Lemma perform_fold_requests st acts w :
  length (inflight (foldl (perform st) w acts))
  = length (inflight w) + requestActions acts.
Proof.
  revert w. induction acts as [|a acts IH]; intros w; simpl.
  - unfold requestActions. simpl. lia.
  - rewrite IH. unfold requestActions. simpl.
    destruct a; simpl; rewrite ?length_app, ?filter_cons; simpl; lia.
Qed.

Lemma effect_requests ls st : requestActions (medicineSearchEffect ls st).2 ≤ 1.
Proof.
  unfold medicineSearchEffect, requestActions.
  destruct (_ && _); simpl; rewrite ?filter_cons; simpl; lia.
Qed.

Lemma commit_requests ls prev r :
  requestActions r.2 = 0
  ∨ (requestActions r.2 = 1 ∧ depsChanged prev r.1 = false) →
  requestActions (commit ls prev r).2 ≤ 1.
Proof.
  intros Hr. unfold commit.
  destruct (depsChanged prev r.1) eqn:Hd.
  - destruct Hr as [Hr | [_ ?]]; [|done].
    pose proof (effect_requests ls r.1) as He.
    destruct (medicineSearchEffect ls r.1) as [st' acts]. simpl in *.
    rewrite requestActions_app. lia.
  - destruct Hr as [-> | [-> _]]; lia.
Qed.

Lemma handle_requests ls e st r :
  handle ls e st = Some r →
  requestActions r.2 = 0
  ∨ (requestActions r.2 = 1 ∧ depsChanged st r.1 = false).
Proof.
  assert (Hsame : ∀ st', medicineSearch st' = medicineSearch st →
                         activeSearchIndex st' = activeSearchIndex st →
                         depsChanged st st' = false).
  { intros st' Hq Ha. by apply depsChanged_same. }
  destruct e; simpl; intros Hh;
    repeat match type of Hh with
           | (if ?b then _ else _) = Some _ => destruct b eqn:?
           end; try discriminate; try (injection Hh as <-; simpl).
  - unfold handlePatientNameChange.
    destruct (Js.truthy_string value); simpl; [right|by left].
    split; [done|by apply Hsame].
  - unfold patientNameFocus.
    destruct (Js.truthy_string _); simpl; [right|by left].
    split; [done|by apply Hsame].
  - by left.
  - by left.
  - by left.
  - by left.
  - by left.
  - unfold handleInvestigationChange.
    destruct (Js.truthy_string value); simpl; [right|by left].
    split; [done|by apply Hsame].
  - unfold investigationsFocus.
    destruct (Js.truthy_string _); simpl; [right|by left].
    split; [done|by apply Hsame].
  - by left.
  - by left.
  - by left.
  - unfold handleMedicineInputChange in Hh. handler_cases Hh. by left.
  - unfold handleInputFocus in Hh. handler_cases Hh. by left.
  - by left.
  - unfold selectMedicine in Hh. handler_cases Hh. by left.
  - by left.
  - unfold removeMedicine. destruct (1 <? _); by left.
  - unfold handleSubmit. destruct (_ || _); simpl; [by left|right].
    split; [done|by apply Hsame].
Qed.

Lemma apply_requests w r :
  length (inflight (apply w r))
  = length (inflight w)
    + requestActions (commit (localStorage w) (component w) r).2.
Proof. unfold apply. by rewrite perform_fold_requests. Qed.

Lemma fire_requests w cb : inflight (fire w cb) = inflight w.
Proof.
  unfold fire, apply. destruct cb.
  - by rewrite commit_same.
  - by rewrite commit_same.
  - unfold commit. simpl. destruct (depsChanged _ _); [|done].
    unfold medicineSearchEffect. simpl.
    by rewrite ?andb_false_r.
Qed.

Lemma fires_requests cbs w : inflight (foldl fire w cbs) = inflight w.
Proof.
  revert w. induction cbs as [|cb cbs IH]; intros w; simpl; [done|].
  by rewrite IH, fire_requests.
Qed.

(** X16.  No event makes the create page send more than one request.  A
    user event adds at most one request to those in flight; a settled
    request removes itself and adds none; and the passing of time, with
    whatever timers it fires, adds none. *)
Theorem at_most_one_request_per_event w e w' :
  step w e = Some w' →
  length (inflight w') ≤ length (inflight w) + 1
  ∧ (∀ n o, e = Settle n o → length (inflight w') < length (inflight w))
  ∧ (∀ ms, e = Elapse ms → inflight w' = inflight w).
Proof.
  intros Hstep. unfold step in Hstep.
  destruct e;
    try match type of Hstep with
        | context [handle ?l ?e ?c] =>
            destruct (handle l e c) as [r|] eqn:Hh;
            [|by change (None = Some w') in Hstep];
            change (Some (apply w r) = Some w') in Hstep;
            injection Hstep as <-; rewrite apply_requests;
            pose proof (commit_requests (localStorage w) (component w) r
                          (handle_requests _ _ _ _ Hh));
            split; [lia|]; split; intros; discriminate
        end.
  - destruct (inflight w !! n) as [p|] eqn:Hp; simpl in Hstep; [|done].
    destruct (settled (request p) o (component w)) as [r|] eqn:Hs;
      simpl in Hstep; [|done].
    injection Hstep as <-. rewrite apply_requests. simpl.
    assert (requestActions
              (commit (localStorage w) (component w) r).2 = 0) as ->.
    { rewrite commit_same.
      - destruct (request p), o as [[]|]; simpl in Hs; by simplify_eq.
      - destruct (request p), o as [[]|]; simpl in Hs; by simplify_eq.
      - destruct (request p), o as [[]|]; simpl in Hs; by simplify_eq. }
    rewrite length_delete by eauto.
    apply lookup_lt_Some in Hp.
    split; [lia|]. split; [intros; lia|intros; discriminate].
  - injection Hstep as <-. unfold elapse. rewrite fires_requests. simpl.
    split; [lia|]. split; [intros; discriminate|done].
Qed.

Lemma at_most_one_request_per_event_witness :
  ∃ w',
    step (afterTrace [InputFocus 0]) (MedicineInputChange 0 name_field "Para")
    = Some w'
    ∧ length (inflight w') ≤ length (inflight (afterTrace [InputFocus 0])) + 1.
Proof.
  eexists. split; [vm_compute; reflexivity|].
  apply (at_most_one_request_per_event (afterTrace [InputFocus 0])
           (MedicineInputChange 0 name_field "Para")).
  vm_compute. reflexivity.
Defined.

End RequestsPerEvent.
